(** * tel_bot: a Telegram storefront bot (src/bot.py)

    The bot shows a fixed table of groups ([COURSE_DATA]), lets a user open
    one of them, and offers a deep link that opens a chat with the operator
    with a pre-filled message.  This development embeds the program in Rocq:

    - Python text is a [string] holding the UTF-8 encoding of the text, which
      is what [urllib.parse.quote] works on (it encodes a [str] as UTF-8 and
      then escapes bytes);
    - a Python [float] is an IEEE 754 binary64 number, modelled with the
      axiom-free [spec_float] of the Standard Library at precision 53;
    - exceptions are values of [exn], and code that may raise returns a
      [result];
    - the handlers are coroutines whose only effects are calls of the Telegram
      Bot API, log lines and writes to [context.user_data]; they are embedded
      in a state monad [M] over a [world] that records these effects in order;
      the chat platform is an arbitrary state machine that accepts or rejects
      each call. *)

From Stdlib Require Import ZArith NArith Ascii String List Bool Lia.
From Stdlib Require Import DecimalString.
From Stdlib Require Import Floats.SpecFloat.
From stdpp Require Import gmap strings.

Import ListNotations.

(* ===================================================================== *)
(** * Definitions *)
(* ===================================================================== *)

(** ** Exceptions and fallible computations *)

(** The exception classes the program can meet; each carries [str(e)]. *)
Inductive exn : Type :=
  | TelegramError (msg : string)
  | ValueError (msg : string)
  | OverflowError (msg : string)
  | AttributeError (msg : string).

(** [str(e)] *)
Definition str_exn (e : exn) : string :=
  match e with
  | TelegramError m | ValueError m | OverflowError m | AttributeError m => m
  end.

(** [isinstance(e, TelegramError)], the test of [except TelegramError]. *)
Definition is_TelegramError (e : exn) : bool :=
  match e with TelegramError _ => true | _ => false end.

(** [except Exception] catches every class above. *)
Definition is_Exception (e : exn) : bool := true.

Inductive result (A : Type) : Type :=
  | Ok (a : A)
  | Raise (e : exn).
Arguments Ok {A} a.
Arguments Raise {A} e.

Definition result_bind {A B} (r : result A) (k : A -> result B) : result B :=
  match r with
  | Ok a => k a
  | Raise e => Raise e
  end.

(** ** Python text *)

Module Py.

(** The line feed, written [\n] in the source. *)
Definition LF : string := String (ascii_of_nat 10) EmptyString.

(** [str(n)] for an [int]. *)
Definition str_int (n : Z) : string := NilZero.string_of_int (Z.to_int n).

(** [sep.join(parts)] *)
Definition join (sep : string) (parts : list string) : string :=
  String.concat sep parts.

(** [s.startswith(p)], which is also what [re.match("^p", s)] decides for a
    pattern [p] without metacharacters. *)
Definition startswith (s p : string) : bool := String.prefix p s.

(** Truth value of an optional text: [None] and the empty text are false. *)
Definition truthy (o : option string) : bool :=
  match o with
  | None | Some EmptyString => false
  | Some _ => true
  end.

(** How an f-string renders an optional text: [None] prints as [None]. *)
Definition fmt_opt (o : option string) : string :=
  match o with
  | None => "None"
  | Some s => s
  end.

(** [s.replace(old, new)]: every occurrence of [old], found from the left
    and without overlap, becomes [new].  [skip] counts the characters of a
    match that are still to be dropped.  With an empty [old], [new] goes
    before every character and at the end. *)
Fixpoint replace_from (old new s : string) (skip : nat) : string :=
  match s with
  | EmptyString =>
      match old with
      | EmptyString => new
      | _ => EmptyString
      end
  | String c rest =>
      match skip with
      | S k => replace_from old new rest k
      | O =>
          match old with
          | EmptyString => new +:+ String c (replace_from old new rest 0)
          | _ =>
              if String.prefix old s
              then new +:+ replace_from old new rest (String.length old - 1)
              else String c (replace_from old new rest 0)
          end
      end
  end.

Definition replace (s old new : string) : string := replace_from old new s 0.

(** [str.zfill]-style padding of a digit string to two places. *)
Definition pad2 (digits : string) : string :=
  match digits with
  | String _ EmptyString => "0" +:+ digits
  | _ => digits
  end.

(** [format(n, "02d")]: the decimal text of [n] in a field of width two,
    filled with zeros after the sign; longer texts are not cut. *)
Definition format_02d (n : Z) : string :=
  match n with
  | Zneg p => "-" +:+ str_int (Zpos p)
  | _ => pad2 (str_int n)
  end.

(** [all(P(c) for c in s)] *)
Fixpoint all_chars (P : ascii -> bool) (s : string) : bool :=
  match s with
  | EmptyString => true
  | String c rest => P c && all_chars P rest
  end.

(** The text has no character [c]. *)
Definition lacks (c : ascii) (s : string) : bool :=
  all_chars (fun x => negb (Ascii.eqb x c)) s.

(** [s.count(sub)]: the occurrences of [sub], counted from the left without
    overlap. *)
Fixpoint count_from (sub s : string) (skip : nat) : nat :=
  match s with
  | EmptyString => 0
  | String c rest =>
      match skip with
      | S k => count_from sub rest k
      | O =>
          if String.prefix sub s
          then S (count_from sub rest (String.length sub - 1))
          else count_from sub rest 0
      end
  end.

Definition count (s sub : string) : nat :=
  match sub with
  | EmptyString => S (String.length s)
  | _ => count_from sub s 0
  end.

(** [s.split(sep)] for a separator of one character: the first piece and the
    pieces after it. *)
Fixpoint split_at (sep : ascii) (s : string) : string * list string :=
  match s with
  | EmptyString => (EmptyString, [])
  | String c rest =>
      let '(piece, others) := split_at sep rest in
      if Ascii.eqb c sep then (EmptyString, piece :: others)
      else (String c piece, others)
  end.

Definition split (s : string) (sep : ascii) : list string :=
  let '(piece, others) := split_at sep s in piece :: others.

(** The rest of [s] after the prefix [p], when [s] starts with it. *)
Fixpoint after (p s : string) : option string :=
  match p, s with
  | EmptyString, _ => Some s
  | String a p', String b s' => if Ascii.eqb a b then after p' s' else None
  | String _ _, EmptyString => None
  end.

End Py.

(** ** Percent-encoding ([urllib.parse]) *)

Module Url.

Definition in_range (lo hi c : ascii) : bool :=
  ((nat_of_ascii lo <=? nat_of_ascii c) && (nat_of_ascii c <=? nat_of_ascii hi))%nat.

(** [_ALWAYS_SAFE]: letters, digits and [_.-~]. *)
Definition always_safe (c : ascii) : bool :=
  in_range "A" "Z" c || in_range "a" "z" c || in_range "0" "9" c
  || Ascii.eqb c "_" || Ascii.eqb c "." || Ascii.eqb c "-" || Ascii.eqb c "~".

(** The bytes [quote] keeps: [_ALWAYS_SAFE] and its default [safe="/"]. *)
Definition is_safe (c : ascii) : bool := always_safe c || Ascii.eqb c "/".

(** One upper-case hexadecimal digit, as ["%02X"] prints it. *)
Definition hex_digit (n : nat) : ascii :=
  if (n <? 10)%nat then ascii_of_nat (48 + n) else ascii_of_nat (55 + n).

(** [_Quoter.__missing__]: a safe byte is kept, any other becomes [%XX]. *)
Definition quoter (c : ascii) : string :=
  if is_safe c then String c EmptyString
  else String "%" (String (hex_digit (nat_of_ascii c / 16))
                     (String (hex_digit (nat_of_ascii c mod 16)) EmptyString)).

(** [quote(s)]: every byte of the UTF-8 text through [quoter]. *)
Fixpoint quote (s : string) : string :=
  match s with
  | EmptyString => EmptyString
  | String c rest => quoter c +:+ quote rest
  end.

(** [_hextobyte]: the value of a hexadecimal digit of either case. *)
Definition hex_value (c : ascii) : option nat :=
  if in_range "0" "9" c then Some (nat_of_ascii c - 48)
  else if in_range "A" "F" c then Some (nat_of_ascii c - 55)
  else if in_range "a" "f" c then Some (nat_of_ascii c - 87)
  else None.

(** Percent-decoding ([unquote_to_bytes], RFC 3986 section 2.1): [%] followed
    by two hexadecimal digits is the byte they name; any other [%] stands
    for itself.  The result is read as UTF-8 text like every [string]. *)
Fixpoint unquote (s : string) : string :=
  match s with
  | EmptyString => EmptyString
  | String c t =>
      if Ascii.eqb c "%" then
        match t with
        | String h1 (String h2 rest) =>
            match hex_value h1, hex_value h2 with
            | Some a, Some b => String (ascii_of_nat (16 * a + b)) (unquote rest)
            | _, _ => String c (unquote t)
            end
        | _ => String c (unquote t)
        end
      else String c (unquote t)
  end.

(** What [quote] writes: kept bytes, and [%] before two hexadecimal digits. *)
Definition quoted_char (c : ascii) : bool := is_safe c || Ascii.eqb c "%".

End Url.

(** ** Python floats: IEEE 754 binary64 *)

Module Float.

Definition prec : Z := 53.
Definition emax : Z := 1024.

(** The quotient [p/q] of two integers, rounded to the nearest float with
    ties to even (the division of [SpecFloat] run on exact operands). *)
Definition of_ratio (p q : positive) : spec_float :=
  SFdiv prec emax (S754_finite false p 0) (S754_finite false q 0).

(** How a decimal text [digits * 10^exp10] is read as a float: a literal of
    the source such as [30.00] is [literal 3000 (-2)], and [float("1e+16")]
    is [literal 1 16]. *)
Definition literal (digits : positive) (exp10 : Z) : spec_float :=
  match exp10 with
  | Zneg k => of_ratio digits (10 ^ k)
  | Z0 => of_ratio digits 1
  | Zpos k => of_ratio (digits * 10 ^ k) 1
  end.

(** [float(n)], the conversion applied to an [int] operand of [-] and [*]. *)
Definition of_int (n : Z) : result spec_float :=
  match binary_normalize prec emax n 0 false with
  | S754_infinity _ => Raise (OverflowError "int too large to convert to float")
  | x => Ok x
  end.

(** [int(x)]: the integer part, rounded towards zero. *)
Definition to_int (x : spec_float) : result Z :=
  match x with
  | S754_zero _ => Ok 0%Z
  | S754_infinity _ => Raise (OverflowError "cannot convert float infinity to integer")
  | S754_nan => Raise (ValueError "cannot convert float NaN to integer")
  | S754_finite s m e => Ok (cond_Zopp s (Z.shiftl (Zpos m) e))
  end.

(** [round(x)] with one argument: the nearest integer, ties to even. *)
Definition round (x : spec_float) : result Z :=
  match x with
  | S754_zero _ => Ok 0%Z
  | S754_infinity _ => Raise (OverflowError "cannot convert float infinity to integer")
  | S754_nan => Raise (ValueError "cannot convert float NaN to integer")
  | S754_finite s m e =>
      match e with
      | Zneg k =>
          let d := (2 ^ Zpos k)%Z in
          let q := (Zpos m / d)%Z in
          let r := (Zpos m mod d)%Z in
          let n := match (2 * r ?= d)%Z with
                   | Lt => q
                   | Gt => (q + 1)%Z
                   | Eq => if Z.even q then q else (q + 1)%Z
                   end in
          Ok (cond_Zopp s n)
      | _ => Ok (cond_Zopp s (Z.shiftl (Zpos m) e))
      end
  end.

(** [x - n] and [x * n] for a float [x] and an int [n]. *)
Definition sub_int (x : spec_float) (n : Z) : result spec_float :=
  result_bind (of_int n) (fun y => Ok (SFsub prec emax x y)).

Definition mul_int (x : spec_float) (n : Z) : result spec_float :=
  result_bind (of_int n) (fun y => Ok (SFmul prec emax x y)).

(** *** [repr(x)]: the shortest decimal text that reads back as [x] *)

Definition same (x y : spec_float) : bool :=
  match x, y with
  | S754_zero a, S754_zero b => Bool.eqb a b
  | S754_infinity a, S754_infinity b => Bool.eqb a b
  | S754_nan, S754_nan => true
  | S754_finite a m e, S754_finite b m' e' =>
      Bool.eqb a b && Pos.eqb m m' && Z.eqb e e'
  | _, _ => false
  end.

(** The exact magnitude [m * 2^e] as a fraction. *)
Definition magnitude (m : positive) (e : Z) : Z * Z :=
  match e with
  | Zneg k => (Zpos m, 2 ^ Zpos k)%Z
  | _ => (Zpos m * 2 ^ e, 1)%Z
  end.

(** Number of decimal digits of a positive integer. *)
Definition ndigits (n : Z) : Z := Z.of_nat (String.length (Py.str_int n)).

(** The least [t' >= t] with [den <= num * 10^t']. *)
Fixpoint first_scale (fuel : nat) (num den t : Z) : Z :=
  match fuel with
  | O => t
  | S f =>
      if (den <=? num * 10 ^ t)%Z then t
      else first_scale f num den (t + 1)%Z
  end.

(** The position [k] of the decimal point: [10^(k-1) <= num/den < 10^k]. *)
Definition decimal_point (num den : Z) : Z :=
  if (den <=? num)%Z then ndigits (num / den)
  else (1 - first_scale (Z.to_nat (ndigits den)) num den 1)%Z.

(** Does the decimal [c * 10^(-s)] read back as [x]? *)
Definition reads_as (x : spec_float) (c s : Z) : bool :=
  match c with
  | Zpos p => same (literal p (- s)) x
  | _ => false
  end.

(** The two [n]-digit decimals around [num/den] (scaled by [10^(n-k)]),
    with the nearer of them (ties to the even one). *)
Definition around (num den k n : Z) : Z * Z * Z :=
  let s := (n - k)%Z in
  let a := (num * 10 ^ Z.max s 0)%Z in
  let b := (den * 10 ^ Z.max (- s) 0)%Z in
  let lo := (a / b)%Z in
  let hi := (lo + 1)%Z in
  let nearest := match (2 * (a mod b) ?= b)%Z with
                 | Lt => lo
                 | Gt => hi
                 | Eq => if Z.even lo then lo else hi
                 end in
  (lo, hi, nearest).

(** An [n]-digit decimal that reads back as [x], the nearest one if both
    neighbours do. *)
Definition candidate (x : spec_float) (num den k n : Z) : option Z :=
  let '(lo, hi, nearest) := around num den k n in
  let ok_lo := reads_as x lo (n - k) in
  let ok_hi := reads_as x hi (n - k) in
  if ok_lo && ok_hi then Some nearest
  else if ok_lo then Some lo
  else if ok_hi then Some hi
  else None.

(** The first length [n, n+1, ...] with such a decimal; after [fuel] tries
    the nearest decimal of the length reached (17 digits always read back). *)
Fixpoint shortest (fuel : nat) (x : spec_float) (num den k n : Z) : Z * Z :=
  match fuel with
  | O => (snd (around num den k n), n)
  | S f =>
      match candidate x num den k n with
      | Some c => (c, n)
      | None => shortest f x num den k (n + 1)%Z
      end
  end.

Fixpoint strip_zeros (fuel : nat) (c : Z) : Z :=
  match fuel with
  | O => c
  | S f => if (c mod 10 =? 0)%Z then strip_zeros f (c / 10)%Z else c
  end.

Fixpoint zeros (n : nat) : string :=
  match n with
  | O => EmptyString
  | S k => String "0" (zeros k)
  end.

(** [format_float_short] for the [repr] format: exponent notation when the
    decimal point is at or left of [-4] or right of [16], otherwise a plain
    decimal with at least one digit after the point. *)
Definition repr_finite (digits : string) (decpt : Z) : string :=
  let len := Z.of_nat (String.length digits) in
  if ((decpt <=? -4) || (16 <? decpt))%Z then
    let mantissa := match digits with
                    | String d (String d' rest) => String d ("." +:+ String d' rest)
                    | _ => digits
                    end in
    let ex := (decpt - 1)%Z in
    mantissa +:+ "e" +:+ (if (ex <? 0)%Z then "-" else "+") +:+ Py.pad2 (Py.str_int (Z.abs ex))
  else if (decpt <=? 0)%Z then
    "0." +:+ zeros (Z.to_nat (- decpt)) +:+ digits
  else if (len <=? decpt)%Z then
    digits +:+ zeros (Z.to_nat (decpt - len)) +:+ ".0"
  else
    String.substring 0 (Z.to_nat decpt) digits +:+ "."
    +:+ String.substring (Z.to_nat decpt) (Z.to_nat (len - decpt)) digits.

(** [repr(x)], which is also [str(x)] and what an f-string prints for [{x}]. *)
Definition repr (x : spec_float) : string :=
  match x with
  | S754_zero s => if s then "-0.0" else "0.0"
  | S754_infinity s => if s then "-inf" else "inf"
  | S754_nan => "nan"
  | S754_finite s m e =>
      let '(num, den) := magnitude m e in
      let k := decimal_point num den in
      let '(c, n) := shortest 16 (binary_round prec emax false m e) num den k 1 in
      (if s then "-" else "")
      +:+ repr_finite (Py.str_int (strip_zeros 20 c)) (k - n + ndigits c)
  end.

(** [float(s)] for an unsigned decimal numeral with a point, such as the
    texts [repr] prints for numbers of moderate size. *)
Definition of_text (s : string) : option spec_float :=
  match Py.split s "." with
  | [whole; fraction] =>
      match NilEmpty.uint_of_string (whole +:+ fraction) with
      | Some d =>
          match Z.of_uint d with
          | Zpos p => Some (literal p (- Z.of_nat (String.length fraction)))
          | _ => Some (S754_zero false)
          end
      | None => None
      end
  | _ => None
  end.

(** The characters [repr] prints: digits, the point, the signs, and the
    letters of [e], [inf] and [nan]. *)
Definition repr_char (c : ascii) : bool :=
  Url.in_range "0" "9" c
  || Ascii.eqb c "." || Ascii.eqb c "-" || Ascii.eqb c "+"
  || Ascii.eqb c "e" || Ascii.eqb c "i" || Ascii.eqb c "n" || Ascii.eqb c "f"
  || Ascii.eqb c "a".

End Float.


#[global] Instance result_ret : MRet result := fun A a => Ok a.
#[global] Instance result_bind_inst : MBind result := fun A B k r => result_bind r k.

(** ** Course data *)

(** One entry of [COURSE_DATA]; the fields are the keys of the dictionary. *)
Record Course : Type := {
  name : string;
  price : spec_float;
  description : string;
  features : list string
}.

(** The table of the source, in the order it is written (a [dict] keeps
    insertion order). *)
Definition COURSE_DATA : list (string * Course) :=
  [ ("course_a",
     {| name := "Ordinary Group";
        price := Float.literal 3000 (-2);
        description := "Get Leaked content, daily updates ✅";
        features := ["Basic content access"; "Daily updates"] |});
    ("course_b",
     {| name := "Standard Group";
        price := Float.literal 5000 (-2);
        description := "Get premium content, daily updates ✅";
        features := ["Premium content access"; "Daily updates"; "Priority support"] |});
    ("course_c",
     {| name := "Premium Group 👑";
        price := Float.literal 10000 (-2);
        description := "Get unlimited premium content, daily updates ✅";
        features := ["Unlimited content access"; "Daily updates"; "24/7 support";
                     "Exclusive materials"] |}) ].

(** [d.get(key)] on a table. *)
Fixpoint dict_get {V : Type} (d : list (string * V)) (key : string) : option V :=
  match d with
  | [] => None
  | (k, v) :: rest => if String.eqb k key then Some v else dict_get rest key
  end.

(** ** Inline keyboards *)

Record InlineKeyboardButton : Type := {
  text : string;
  callback_data : option string;
  url : option string
}.

Definition InlineKeyboardMarkup : Type := list (list InlineKeyboardButton).

(** The price as the keyboard label and the detail view print it:
    [f"₹{int(p)}.{int(round((p - int(p)) * 100)):02d}"]. *)
Definition price_text (p : spec_float) : result string :=
  major ← Float.to_int p;
  whole ← Float.to_int p;
  fraction ← Float.sub_int p whole;
  scaled ← Float.mul_int fraction 100;
  minor ← Float.round scaled;
  mret ("₹" +:+ Py.str_int major +:+ "." +:+ Py.format_02d minor).

(** One row of the selection keyboard (the body of the list comprehension). *)
Definition course_row (entry : string * Course) : result (list InlineKeyboardButton) :=
  let '(course_id, course) := entry in
  shown ← price_text (price course);
  mret [ {| text := name course +:+ " (" +:+ shown +:+ ")";
            callback_data := Some ("select_course_" +:+ course_id);
            url := None |} ].

Definition demo_button : InlineKeyboardButton :=
  {| text := "📸 Show Demo";
     callback_data := None;
     url := Some "https://t.me/+ukJYiqlkRLYzOTFl" |}.

(** [create_course_keyboard()] over a table; the program runs it on
    [COURSE_DATA]. *)
Definition course_keyboard (table : list (string * Course)) : result InlineKeyboardMarkup :=
  keyboard ← mapM course_row table;
  mret (keyboard ++ [[demo_button]]).

Definition create_course_keyboard : result InlineKeyboardMarkup :=
  course_keyboard COURSE_DATA.

(** The pre-filled message of the deep link, lines 80-93 of the source: the
    name and each feature go through [quote], the price is printed as the
    float it is, and the line breaks are written as [%0A]. *)
Definition message_text (course : Course) : string :=
  let course_name := Url.quote (name course) in
  let features := Py.join "|" (map Url.quote (features course)) in
  "Hello Admin,%0A%0A"
  +:+ "I'm interested in the following Group:%0A"
  +:+ "📘 Group: " +:+ course_name +:+ "%0A"
  +:+ "💰 Price: ₹" +:+ Float.repr (price course) +:+ "%0A"
  +:+ "📋 Features: " +:+ features +:+ "%0A%0A"
  +:+ "Please provide payment details.".

Definition deep_link (ADMIN_USERNAME : option string) (course : Course) : string :=
  "https://t.me/" +:+ Py.fmt_opt ADMIN_USERNAME +:+ "?text=" +:+ message_text course.

Definition back_button : InlineKeyboardButton :=
  {| text := "⬅️ Back to Groups";
     callback_data := Some "back_to_groups";
     url := None |}.

Definition create_course_detail_keyboard (ADMIN_USERNAME : option string)
    (course_id : string) : option InlineKeyboardMarkup :=
  match dict_get COURSE_DATA course_id with
  | None => None
  | Some course =>
      Some [ [ {| text := "Contact Admin";
                  callback_data := None;
                  url := Some (deep_link ADMIN_USERNAME course) |} ];
             [ back_button ] ]
  end.

(** ** Updates and the calls of the Bot API *)

Record CallbackQuery : Type := { data : string }.

Record Message : Type := { message_id : Z }.

Record User : Type := {
  first_name : string;
  last_name : option string;
  username : option string
}.

(** The attributes of an [Update] the program reads. *)
Record Update : Type := {
  message : option Message;
  callback_query : option CallbackQuery;
  effective_message : option Message;
  effective_user : option User
}.

(** The awaited calls: [query.edit_message_text], [message.reply_text],
    [query.answer] and [bot.send_message].  An omitted keyword argument is
    [None]. *)
Inductive api_call : Type :=
  | EditMessageText (text : string) (reply_markup : option InlineKeyboardMarkup)
      (parse_mode : option string)
  | ReplyText (text : string) (reply_markup : option InlineKeyboardMarkup)
      (parse_mode : option string)
  | AnswerCallbackQuery (text : option string)
  | SendMessage (chat_id : string) (text : string).

Inductive level : Type := ERROR | INFO | CRITICAL.

(** What a run leaves behind: each call with the [TelegramError] it raised,
    if any, and each line given to [logger]. *)
Inductive event : Type :=
  | Called (c : api_call) (failure : option string)
  | Logged (l : level) (msg : string).

(** The value stored under [context.user_data['selected_course']]. *)
Record SelectedCourse : Type := {
  selected_id : string;
  selected_name : string;
  selected_price : spec_float;
  selected_features : list string
}.

(** ** Routing: the handlers [main] registers *)

Inductive callback_fn : Type :=
  | Start_command
  | Show_courses_menu
  | Select_course
  | Contact_admin.

(** The patterns of the source are a literal anchored at the start,
    [^literal], or at both ends, [^literal$]. *)
Inductive pattern : Type :=
  | StartsWith (literal : string)
  | Whole (literal : string).

(** [re.match(pattern, s)]; [$] also matches before a final line feed. *)
Definition re_match (p : pattern) (s : string) : bool :=
  match p with
  | StartsWith literal => Py.startswith s literal
  | Whole literal => String.eqb s literal || String.eqb s (literal +:+ Py.LF)
  end.

(** [CallbackQueryHandler.check_update] of the framework, for a callback
    query with data [payload] and a handler with pattern [p]: the pattern is
    tried only [if callback_data:], and a query whose data is empty is
    taken by the handler whatever its pattern. *)
Definition check_update (p : pattern) (payload : string) : bool :=
  match payload with
  | EmptyString => true
  | String _ _ => re_match p payload
  end.

Inductive handler : Type :=
  | CommandHandler (command : string) (callback : callback_fn)
  | CallbackQueryHandler (callback : callback_fn) (p : pattern).

(** The [add_handler] calls of [main], in order. *)
Definition handlers : list handler :=
  [ CommandHandler "start" Start_command;
    CallbackQueryHandler Show_courses_menu (Whole "back_to_groups");
    CallbackQueryHandler Select_course (StartsWith "select_course_");
    CallbackQueryHandler Contact_admin (StartsWith "contact_admin_") ].

(** The first registered handler that accepts a callback query with payload
    [payload] runs; a command handler accepts none. *)
Fixpoint first_match (hs : list handler) (payload : string) : option callback_fn :=
  match hs with
  | [] => None
  | CallbackQueryHandler callback p :: rest =>
      if check_update p payload then Some callback else first_match rest payload
  | CommandHandler _ _ :: rest => first_match rest payload
  end.

Definition route_callback (payload : string) : option callback_fn :=
  first_match handlers payload.

(** ** Start of the process *)

Inductive boot_step : Type :=
  | BootLog (l : level) (msg : string)
  | BuildApplication (token : string)
  | AddHandler (h : handler)
  | AddErrorHandler
  | RunPolling
  | Uncaught (e : exn).

(** [main()]: [library] tells which call of the framework raises, if any. *)
Definition main (library : boot_step -> option exn) (TELEGRAM_BOT_TOKEN : string)
    : list boot_step :=
  let fatal e := [BootLog CRITICAL ("Fatal error starting bot: " +:+ str_exn e); Uncaught e] in
  match library (BuildApplication TELEGRAM_BOT_TOKEN) with
  | Some e => BuildApplication TELEGRAM_BOT_TOKEN :: fatal e
  | None =>
      BuildApplication TELEGRAM_BOT_TOKEN :: map AddHandler handlers
      ++ [AddErrorHandler; BootLog INFO "Starting bot..."; RunPolling]
      ++ match library RunPolling with
         | Some e => fatal e
         | None => []
         end
  end.

(** The module run as a script: the two variables are read from the
    environment, the token is checked, and [main()] is called. *)
Definition startup (getenv : string -> option string)
    (library : boot_step -> option exn) : list boot_step :=
  let TELEGRAM_BOT_TOKEN := getenv "TELEGRAM_BOT_TOKEN" in
  let ADMIN_USERNAME := getenv "ADMIN_USERNAME" in
  if negb (Py.truthy TELEGRAM_BOT_TOKEN) then
    [ BootLog ERROR "TELEGRAM_BOT_TOKEN environment variable is not set.";
      Uncaught (ValueError "TELEGRAM_BOT_TOKEN is required") ]
  else main library (Py.fmt_opt TELEGRAM_BOT_TOKEN).

Definition event_loop_started (steps : list boot_step) : bool :=
  existsb (fun s => match s with RunPolling => true | _ => false end) steps.

Definition aborted (steps : list boot_step) : bool :=
  existsb (fun s => match s with Uncaught _ => true | _ => false end) steps.

(** ** The handlers *)

Section Bot.

(** The chat platform: from a state, a call is accepted ([None]) or raises a
    [TelegramError] with a message, and the platform moves on. *)
Context {Platform : Type}.
Variable telegram : Platform -> api_call -> option string * Platform.

(** The module-level [ADMIN_USERNAME = os.getenv("ADMIN_USERNAME")]. *)
Variable ADMIN_USERNAME : option string.

(** [telegram.helpers.escape_markdown(text, version=2)] and [str(update)],
    both of the framework. *)
Variable escape_markdown : string -> string.
Variable str_update : option Update -> string.

Record world : Type := World {
  platform : Platform;
  user_data : gmap string SelectedCourse;
  trace : list event
}.

(** A coroutine of the program: from a world, a value or an exception, and
    the world it leaves. *)
Definition M (A : Type) : Type := world -> result A * world.

#[local] Instance M_ret : MRet M := fun A a w => (Ok a, w).

#[local] Instance M_bind : MBind M := fun A B k m w =>
  match m w with
  | (Ok a, w') => k a w'
  | (Raise e, w') => (Raise e, w')
  end.

Definition raise {A : Type} (e : exn) : M A := fun w => (Raise e, w).

Definition lift {A : Type} (r : result A) : M A := fun w => (r, w).

Definition record (ev : event) (w : world) : world :=
  World (platform w) (user_data w) (trace w ++ [ev]).

(** [await] of one call of the Bot API. *)
Definition call (c : api_call) : M unit := fun w =>
  let '(failure, next) := telegram (platform w) c in
  let w' := World next (user_data w) (trace w ++ [Called c failure]) in
  match failure with
  | None => (Ok tt, w')
  | Some msg => (Raise (TelegramError msg), w')
  end.

Definition logger (l : level) (msg : string) : M unit := fun w =>
  (Ok tt, record (Logged l msg) w).

(** [context.user_data[key] = value] *)
Definition set_user_data (key : string) (value : SelectedCourse) : M unit := fun w =>
  (Ok tt, World (platform w) (<[key := value]> (user_data w)) (trace w)).

(** [try: body / except <class> as e: handle e] *)
Definition try_except {A : Type} (body : M A) (catches : exn -> bool)
    (handle : exn -> M A) : M A := fun w =>
  match body w with
  | (Raise e, w') => if catches e then handle e w' else (Raise e, w')
  | done => done
  end.

(** [x.attr] on an optional object: [None] has no attribute. *)
Definition getattr {A : Type} (o : option A) (attr : string) : M A :=
  match o with
  | Some a => mret a
  | None => raise (AttributeError ("'NoneType' object has no attribute '" +:+ attr +:+ "'"))
  end.

(** *** [send_safe_message] *)

(** Lines 108-113: the text of the first attempt. *)
Definition escaped_text (parse_mode : option string) (text : string) : string :=
  match parse_mode with
  | Some mode => if String.eqb mode "MarkdownV2" then escape_markdown text else text
  | None => text
  end.

(** The [parse_mode] keyword is passed only [if parse_mode:]. *)
Definition passed_mode (parse_mode : option string) : option string :=
  if Py.truthy parse_mode then parse_mode else None.

(** The choice made at lines 115-138 and again at 143-152: edit the message
    of a callback query, or reply to the message of the update. *)
Definition deliver (update : Update) (text : string)
    (reply_markup : option InlineKeyboardMarkup) (parse_mode : option string) : M unit :=
  match callback_query update with
  | Some _ => call (EditMessageText text reply_markup parse_mode)
  | None =>
      _ ← getattr (message update) "reply_text";
      call (ReplyText text reply_markup parse_mode)
  end.

Definition apology : string := "Sorry, an error occurred. Please try again.".

Definition send_safe_message (update : Update) (text : string)
    (reply_markup : option InlineKeyboardMarkup) (parse_mode : option string) : M unit :=
  try_except
    (deliver update (escaped_text parse_mode text) reply_markup (passed_mode parse_mode))
    is_TelegramError
    (fun e =>
       logger ERROR ("Error sending message: " +:+ str_exn e);;
       try_except
         (deliver update text reply_markup None)
         is_TelegramError
         (fun e' =>
            logger ERROR ("Fallback message failed: " +:+ str_exn e');;
            match callback_query update with
            | Some _ => call (AnswerCallbackQuery (Some apology))
            | None => mret tt
            end)).

(** *** Handler functions *)

Definition welcome_text : string :=
  "🌟 Welcome to our Premium Bot 📚" +:+ Py.LF +:+ Py.LF
  +:+ "Select a Group below to see its details:".

Definition start_command (update : Update) : M unit :=
  keyboard ← lift create_course_keyboard;
  send_safe_message update welcome_text (Some keyboard) None.

Definition show_courses_menu (update : Update) : M unit :=
  let menu_text := welcome_text in
  keyboard ← lift create_course_keyboard;
  send_safe_message update menu_text (Some keyboard) None.

Definition not_found : string := "Error: Group information not found.".

(** Lines 190-201: the text of the detail view. *)
Definition description_text (course : Course) : result string :=
  let features := Py.join (Py.LF +:+ "• ") (features course) in
  let description := description course in
  shown ← price_text (price course);
  mret ("📘 " +:+ name course +:+ " 👑" +:+ Py.LF +:+ Py.LF
        +:+ "💰 Price: " +:+ shown +:+ Py.LF +:+ Py.LF
        +:+ "📋 Features:" +:+ Py.LF +:+ "• " +:+ features +:+ Py.LF +:+ Py.LF
        +:+ "📝 Description:" +:+ Py.LF +:+ description).

Definition select_course (update : Update) : M unit :=
  try_except
    (query ← getattr (callback_query update) "answer";
     call (AnswerCallbackQuery None);;
     let course_id := Py.replace (data query) "select_course_" "" in
     match dict_get COURSE_DATA course_id with
     | None => send_safe_message update not_found None None
     | Some course =>
         set_user_data "selected_course"
           {| selected_id := course_id;
              selected_name := name course;
              selected_price := price course;
              selected_features := features course |};;
         shown ← lift (description_text course);
         send_safe_message update shown
           (create_course_detail_keyboard ADMIN_USERNAME course_id) None
     end)
    is_Exception
    (fun e =>
       logger ERROR ("Error selecting Group: " +:+ str_exn e);;
       send_safe_message update
         "Sorry, an error occurred while processing your request." None None).

Definition error_handler (update : option Update) (error : exn) : M unit :=
  logger ERROR ("Update " +:+ str_update update +:+ " caused error " +:+ str_exn error);;
  upd ← getattr update "effective_message";
  match effective_message upd with
  | Some _ => send_safe_message upd "An error occurred. Please try again later." None None
  | None => mret tt
  end.

Definition contact_admin (update : Update) : M unit :=
  try_except
    (query ← getattr (callback_query update) "answer";
     call (AnswerCallbackQuery None);;
     let course_id := Py.replace (data query) "contact_admin_" "" in
     match dict_get COURSE_DATA course_id with
     | None => send_safe_message update not_found None None
     | Some course =>
         user ← getattr (effective_user update) "first_name";
         let shown_last_name :=
           if Py.truthy (last_name user) then Py.fmt_opt (last_name user) else "" in
         let user_info :=
           "User: " +:+ first_name user +:+ " " +:+ shown_last_name
           +:+ " (@" +:+ Py.fmt_opt (username user) +:+ ")" in
         let inquiry :=
           "New course inquiry from " +:+ user_info +:+ ":" +:+ Py.LF +:+ Py.LF
           +:+ "📘 Group: " +:+ name course +:+ Py.LF
           +:+ "💰 Price: ₹" +:+ Float.repr (price course) +:+ Py.LF
           +:+ "📋 Features: " +:+ Py.join ", " (features course) in
         call (SendMessage ("@" +:+ Py.fmt_opt ADMIN_USERNAME) inquiry);;
         send_safe_message update
           "Your request has been sent to the admin. They will contact you shortly with payment details."
           None None
     end)
    is_Exception
    (fun e =>
       logger ERROR ("Error contacting admin: " +:+ str_exn e);;
       send_safe_message update "Sorry, an error occurred while contacting the admin." None None).

(** The coroutine behind each registered callback. *)
Definition run (callback : callback_fn) (update : Update) : M unit :=
  match callback with
  | Start_command => start_command update
  | Show_courses_menu => show_courses_menu update
  | Select_course => select_course update
  | Contact_admin => contact_admin update
  end.

End Bot.

Arguments world : clear implicits.
Arguments M : clear implicits.

(** ** Vocabulary of the statements *)

(** The link text the specification asks for: every field, the printed price
    included, goes through [quote] on its own. *)
Definition message_text_as_specified (course : Course) : string :=
  "Hello Admin,%0A%0A"
  +:+ "I'm interested in the following Group:%0A"
  +:+ "📘 Group: " +:+ Url.quote (name course) +:+ "%0A"
  +:+ "💰 Price: ₹" +:+ Url.quote (Float.repr (price course)) +:+ "%0A"
  +:+ "📋 Features: " +:+ Py.join "|" (map Url.quote (features course)) +:+ "%0A%0A"
  +:+ "Please provide payment details.".

(** The message a reader of the opened link sees, written with the fields
    as they are in the table. *)
Definition plain_message (course : Course) : string :=
  "Hello Admin," +:+ Py.LF +:+ Py.LF
  +:+ "I'm interested in the following Group:" +:+ Py.LF
  +:+ "📘 Group: " +:+ name course +:+ Py.LF
  +:+ "💰 Price: ₹" +:+ Float.repr (price course) +:+ Py.LF
  +:+ "📋 Features: " +:+ Py.join "|" (features course) +:+ Py.LF +:+ Py.LF
  +:+ "Please provide payment details.".

(** Reading the fields back from a decoded message: its lines, the labels
    taken off, the features split at the delimiter. *)
Definition read_back (decoded : string) : option (string * string * list string) :=
  match Py.split decoded (ascii_of_nat 10) with
  | [_; _; _; group; cost; listed; _; _] =>
      match Py.after "📘 Group: " group, Py.after "💰 Price: ₹" cost,
            Py.after "📋 Features: " listed with
      | Some shown_name, Some shown_price, Some shown_features =>
          Some (shown_name, shown_price, Py.split shown_features "|")
      | _, _, _ => None
      end
  | _ => None
  end.

(** A course whose fields fit the lines of the message: no line feed in the
    name or a feature, no delimiter in a feature, at least one feature. *)
Definition fits_lines (course : Course) : bool :=
  Py.lacks (ascii_of_nat 10) (name course)
  && forallb (fun f => Py.lacks (ascii_of_nat 10) f && Py.lacks "|" f) (features course)
  && negb (Nat.eqb (length (features course)) 0).

(** The events a run adds to the trace. *)
Definition added {Platform : Type} (before after : world Platform) : list event :=
  drop (length (trace before)) (trace after).

(** A property of the text, keyboard and mode of every message a run sends
    or edits; other events are not constrained. *)
Definition on_deliveries
    (Q : string -> option InlineKeyboardMarkup -> option string -> Prop)
    (ev : event) : Prop :=
  match ev with
  | Called (EditMessageText t k m) _ | Called (ReplyText t k m) _ => Q t k m
  | _ => True
  end.

(** Every event a coroutine adds satisfies [P], from any world. *)
Definition emits {Platform A : Type} (P : event -> Prop) (m : M Platform A) : Prop :=
  forall w, exists es, trace (snd (m w)) = trace w ++ es /\ Forall P es.

(** A coroutine that leaves [context.user_data] as it found it. *)
Definition keeps_user_data {Platform A : Type} (m : M Platform A) : Prop :=
  forall w, user_data (snd (m w)) = user_data w.

Definition is_delivery (ev : event) : bool :=
  match ev with
  | Called (EditMessageText _ _ _) _ | Called (ReplyText _ _ _) _ => true
  | _ => false
  end.

(** No button of the keyboard carries a payload for the [contact_admin]
    handler. *)
Definition no_relay_button (kb : InlineKeyboardMarkup) : bool :=
  forallb (forallb (fun b =>
    match callback_data b with
    | Some payload =>
        negb (Py.startswith payload "contact_admin_")
        && match route_callback payload with
           | Some Contact_admin => false
           | _ => true
           end
    | None => true
    end)) kb.

(** *** Platforms used to run the handlers on examples *)

(** A platform that accepts every call, one that rejects every call, and one
    that plays a script of outcomes, accepting once the script is over. *)
Definition accepting : unit -> api_call -> option string * unit :=
  fun _ _ => (None, tt).

Definition rejecting : unit -> api_call -> option string * unit :=
  fun _ _ => (Some "Bad Request", tt).

Definition scripted : list (option string) -> api_call -> option string * list (option string) :=
  fun script _ =>
    match script with
    | [] => (None, [])
    | outcome :: rest => (outcome, rest)
    end.

Definition fresh {Platform : Type} (p : Platform) : world Platform :=
  World p ∅ [].

Definition command_update : Update :=
  {| message := Some {| message_id := 1 |};
     callback_query := None;
     effective_message := Some {| message_id := 1 |};
     effective_user := Some {| first_name := "Asha"; last_name := None; username := Some "asha" |} |}.

Definition button_press (payload : string) : Update :=
  {| message := None;
     callback_query := Some {| data := payload |};
     effective_message := Some {| message_id := 1 |};
     effective_user := Some {| first_name := "Asha"; last_name := None; username := Some "asha" |} |}.

(** A course that is not in the table, with reserved characters in its
    fields. *)
Definition sample_course : Course :=
  {| name := "R&D 100% Group ☕";
     price := Float.literal 1999 (-2);
     description := "Für alle";
     features := ["Q&A sessions"; "100% refund"; "Zugang für alle"] |}.

(** A course with a line feed inside a feature and a price that [repr]
    prints in exponent notation. *)
Definition odd_course : Course :=
  {| name := "Bulk";
     price := Float.literal 1 16;
     description := "";
     features := ["Daily" +:+ Py.LF +:+ "updates"] |}.

(** A course whose name and features hold no line feed. *)
Definition single_lines (course : Course) : bool :=
  Py.lacks (ascii_of_nat 10) (name course)
  && forallb (Py.lacks (ascii_of_nat 10)) (features course).

(** A price text made of a major part of one or more digits, a point, and
    exactly two digits. *)
Definition two_minor_digits (shown : string) : bool :=
  match Py.split shown "." with
  | [major; minor] =>
      negb (String.eqb major "")
      && Py.all_chars (Url.in_range "0" "9") major
      && Nat.eqb (String.length minor) 2
      && Py.all_chars (Url.in_range "0" "9") minor
  | _ => false
  end.

(** The call [deliver] awaits for an update: an edit for a callback query, a
    reply for a message, none for an update with neither. *)
Definition delivery (update : Update) (text : string)
    (reply_markup : option InlineKeyboardMarkup) (parse_mode : option string)
    : option api_call :=
  match callback_query update, message update with
  | Some _, _ => Some (EditMessageText text reply_markup parse_mode)
  | None, Some _ => Some (ReplyText text reply_markup parse_mode)
  | None, None => None
  end.

(** Both calls edit, or both reply. *)
Definition same_addressing (a b : api_call) : bool :=
  match a, b with
  | EditMessageText _ _ _, EditMessageText _ _ _ => true
  | ReplyText _ _ _, ReplyText _ _ _ => true
  | _, _ => false
  end.

(** [escape_markdown(text, version=2)] as the framework defines it: a
    backslash (character 92) before each character of its list, the
    backslash among them. *)
Fixpoint escape_markdown_v2 (text : string) : string :=
  match text with
  | EmptyString => EmptyString
  | String c rest =>
      if Py.lacks c "_*[]()~`>#+-=|{}.!" && negb (Ascii.eqb c (ascii_of_nat 92))
      then String c (escape_markdown_v2 rest)
      else String (ascii_of_nat 92) (String c (escape_markdown_v2 rest))
  end.

Definition generic_error : string :=
  "Sorry, an error occurred while processing your request.".

Definition acknowledgment : api_call := AnswerCallbackQuery (Some apology).

(** *** Further vocabulary *)

Definition is_call (ev : event) : bool :=
  match ev with
  | Called _ _ => true
  | Logged _ _ => false
  end.

(** The entry [select_course] stores for a course of the table. *)
Definition selection_of (course_id : string) (course : Course) : SelectedCourse :=
  {| selected_id := course_id;
     selected_name := name course;
     selected_price := price course;
     selected_features := features course |}.

(** A session whose stored selection, if any, is the entry of a course of
    the table under its own id. *)
Definition sound_session (session : gmap string SelectedCourse) : Prop :=
  forall stored : SelectedCourse,
    session !! "selected_course" = Some stored ->
    exists course : Course,
      dict_get COURSE_DATA (selected_id stored) = Some course
      /\ stored = selection_of (selected_id stored) course.

(** The text that tells the requester that the inquiry went to the
    operator. *)
Definition confirmation : string :=
  "Your request has been sent to the admin. They will contact you shortly with payment details.".

(** Some message of the run carries the confirmation text. *)
Definition tells_sent (es : list event) : bool :=
  existsb (fun ev =>
             match ev with
             | Called (EditMessageText t _ _) _ | Called (ReplyText t _ _) _ =>
                 String.eqb t confirmation
             | _ => false
             end) es.

(** The platform accepted a message to the chat [chat]. *)
Definition relayed_to (chat : string) (es : list event) : bool :=
  existsb (fun ev =>
             match ev with
             | Called (SendMessage to _) None => String.eqb to chat
             | _ => false
             end) es.

(** No [bot.send_message] call, accepted or not. *)
Definition is_relay (ev : event) : bool :=
  match ev with
  | Called (SendMessage _ _) _ => true
  | _ => false
  end.

(** A payload the program handles without a not-found answer: it is routed
    to the menu, or to [select_course] with an id of the table. *)
Definition resolves (payload : string) : bool :=
  match route_callback payload with
  | Some Show_courses_menu => true
  | Some Select_course =>
      match dict_get COURSE_DATA (Py.replace payload "select_course_" "") with
      | Some _ => true
      | None => false
      end
  | _ => false
  end.

(** Every button of the keyboard opens a link or carries such a payload. *)
Definition live_keyboard (kb : InlineKeyboardMarkup) : bool :=
  forallb (forallb (fun b =>
    match callback_data b, url b with
    | Some payload, _ => resolves payload
    | None, Some _ => true
    | None, None => false
    end)) kb.

(** The platform accepts every plain acknowledgment of a button press. *)
Definition acknowledges {Platform : Type}
    (telegram : Platform -> api_call -> option string * Platform) : Prop :=
  forall p : Platform, fst (telegram p (AnswerCallbackQuery None)) = None.

(** Every run of the coroutine adds events that satisfy [G] as a whole. *)
Definition produces {Platform A : Type} (G : list event -> Prop) (m : M Platform A) : Prop :=
  forall w, exists es, trace (snd (m w)) = trace w ++ es /\ G es.

(** No message of the run carries the confirmation text, or the platform
    accepted a message to the chat [chat]. *)
Definition confirmation_backed (chat : string) (es : list event) : Prop :=
  Forall (on_deliveries (fun t _ _ => t <> confirmation)) es
  \/ relayed_to chat es = true.

(** Every run of the coroutine takes the session to one related to it by
    [R]. *)
Definition session_moves {Platform A : Type}
    (R : gmap string SelectedCourse -> gmap string SelectedCourse -> Prop)
    (m : M Platform A) : Prop :=
  forall w, R (user_data w) (user_data (snd (m w))).

(** What handling [update] does to the session: nothing, or the entry of
    the course of the table named by the payload of the button is stored. *)
Definition selects (update : Update) (before after : gmap string SelectedCourse) : Prop :=
  after = before
  \/ exists (query : CallbackQuery) (course : Course),
       callback_query update = Some query
       /\ dict_get COURSE_DATA (Py.replace (data query) "select_course_" "") = Some course
       /\ after = <["selected_course" :=
                      selection_of (Py.replace (data query) "select_course_" "") course]>
                    before.

(** The keyboard under the detail view of a course. *)
Definition detail_keyboard (ADMIN_USERNAME : option string) (course : Course)
    : InlineKeyboardMarkup :=
  [ [ {| text := "Contact Admin";
         callback_data := None;
         url := Some (deep_link ADMIN_USERNAME course) |} ];
    [ back_button ] ].

(** The line [error_handler] logs. *)
Definition error_line (str_update : option Update -> string) (update : option Update)
    (error : exn) : event :=
  Logged ERROR ("Update " +:+ str_update update +:+ " caused error " +:+ str_exn error).

(** The steps of a start that reaches the event loop. *)
Definition polling_prefix (token : string) : list boot_step :=
  BuildApplication token :: map AddHandler handlers
  ++ [AddErrorHandler; BootLog INFO "Starting bot..."; RunPolling].

(** A log line of level [ERROR] or [CRITICAL]. *)
Definition is_failure_log (s : boot_step) : bool :=
  match s with
  | BootLog ERROR _ | BootLog CRITICAL _ => true
  | _ => false
  end.

(** The entry of [COURSE_DATA] under ["course_b"]. *)
Definition standard_group : Course :=
  {| name := "Standard Group";
     price := Float.literal 5000 (-2);
     description := "Get premium content, daily updates ✅";
     features := ["Premium content access"; "Daily updates"; "Priority support"] |}.


(* ===================================================================== *)
(** * Properties *)
(* ===================================================================== *)

(** ** The definitions at work *)

Example quote_reserved :
  Url.quote "24/7 support & 100% |x~" = "24/7%20support%20%26%20100%25%20%7Cx~".
Proof. reflexivity. Qed.

Example quote_non_ascii : Url.quote "Premium Group 👑" = "Premium%20Group%20%F0%9F%91%91".
Proof. reflexivity. Qed.

Example unquote_stray_percent : Url.unquote "%zz%4%41%4a%%41" = "%zz%4AJ%A".
Proof. reflexivity. Qed.

Example replace_every_occurrence :
  Py.replace "select_course_course_a" "select_course_" "" = "course_a"
  /\ Py.replace "aaaa" "aa" "b" = "bb".
Proof. split; reflexivity. Qed.

Example repr_samples :
  map Float.repr
    [Float.literal 3000 (-2); Float.literal 1999 (-2); Float.literal 1 (-1);
     Float.literal 1 16; Float.literal 15 (-6); Float.literal 1 23]
  = ["30.0"; "19.99"; "0.1"; "1e+16"; "1.5e-05"; "1e+23"].
Proof. vm_compute. reflexivity. Qed.

Example price_text_samples :
  map price_text [Float.literal 1999 (-2); Float.literal 2995 (-1); Float.literal 999 (-3)]
  = [Ok "₹19.99"; Ok "₹299.50"; Ok "₹0.100"].
Proof. vm_compute. reflexivity. Qed.

Example route_samples :
  map route_callback
    ["back_to_groups"; "select_course_course_a"; "contact_admin_course_a"; "start"; ""]
  = [Some Show_courses_menu; Some Select_course; Some Contact_admin; None;
     Some Show_courses_menu].
Proof. reflexivity. Qed.

Example select_known_course :
  let final :=
    select_course accepting (Some "operator") escape_markdown_v2
      (button_press "select_course_course_b") (fresh tt) in
  fst final = Ok tt
  /\ option_map selected_id (user_data (snd final) !! "selected_course") = Some "course_b"
  /\ map is_delivery (trace (snd final)) = [false; true].
Proof. repeat split; vm_compute; reflexivity. Qed.

(** ** Text *)

Lemma append_cons (x : ascii) (a b : string) : String x a +:+ b = String x (a +:+ b).
Proof. reflexivity. Qed.

Lemma append_empty_l (b : string) : "" +:+ b = b.
Proof. reflexivity. Qed.

Ltac push_append := rewrite ?append_cons, ?append_empty_l.

Lemma append_assoc (a b c : string) : (a +:+ b) +:+ c = a +:+ (b +:+ c).
Proof. induction a as [|x a IH]; push_append; [reflexivity | now rewrite IH]. Qed.

Lemma append_empty_r (a : string) : a +:+ "" = a.
Proof. induction a as [|x a IH]; push_append; [reflexivity | now rewrite IH]. Qed.

Lemma all_chars_app P (a b : string) :
  Py.all_chars P (a +:+ b) = Py.all_chars P a && Py.all_chars P b.
Proof.
  induction a as [|x a IH]; push_append; simpl; [reflexivity|].
  now rewrite IH, andb_assoc.
Qed.

Lemma all_chars_weaken (P Q : ascii -> bool) (s : string) :
  (forall c, P c = true -> Q c = true) ->
  Py.all_chars P s = true -> Py.all_chars Q s = true.
Proof.
  intros HPQ. induction s as [|x s IH]; simpl; [reflexivity|].
  rewrite !andb_true_iff. intros [Hx Hs]. split; auto.
Qed.

Lemma all_chars_substring P (s : string) (n m : nat) :
  Py.all_chars P s = true -> Py.all_chars P (String.substring n m s) = true.
Proof.
  revert n m. induction s as [|x s IH]; intros n m H.
  - destruct n, m; reflexivity.
  - simpl in H. apply andb_true_iff in H as [Hx Hs].
    destruct n as [|n]; simpl.
    + destruct m as [|m]; simpl; [reflexivity|].
      rewrite Hx. simpl. apply IH, Hs.
    + apply IH, Hs.
Qed.

Lemma all_chars_join P (sep : string) (parts : list string) :
  Py.all_chars P sep = true ->
  forallb (Py.all_chars P) parts = true ->
  Py.all_chars P (Py.join sep parts) = true.
Proof.
  intros Hsep. unfold Py.join.
  induction parts as [|p parts IH]; simpl; [reflexivity|].
  rewrite andb_true_iff. intros [Hp Hparts].
  destruct parts as [|q parts]; [exact Hp|].
  rewrite !all_chars_app, Hp, Hsep. simpl. apply IH, Hparts.
Qed.

(** *** Splitting at one character *)

Lemma split_piece (c : ascii) (a b : string) :
  Py.lacks c a = true -> Py.split (a +:+ String c b) c = a :: Py.split b c.
Proof.
  unfold Py.split, Py.lacks.
  induction a as [|x a IH]; push_append; simpl; intros H.
  - rewrite Ascii.eqb_refl. now destruct (Py.split_at c b).
  - apply andb_true_iff in H as [Hx Ha]. specialize (IH Ha).
    destruct (Py.split_at c (a +:+ String c b)) as [piece others].
    apply negb_true_iff in Hx. rewrite Hx.
    destruct (Py.split_at c b). now inversion IH.
Qed.

Lemma split_last (c : ascii) (a : string) :
  Py.lacks c a = true -> Py.split a c = [a].
Proof.
  unfold Py.split, Py.lacks.
  induction a as [|x a IH]; simpl; intros H; [reflexivity|].
  apply andb_true_iff in H as [Hx Ha]. specialize (IH Ha).
  destruct (Py.split_at c a) as [piece others].
  apply negb_true_iff in Hx. rewrite Hx. now inversion IH.
Qed.

Lemma split_join (c : ascii) (parts : list string) :
  parts <> [] ->
  forallb (Py.lacks c) parts = true ->
  Py.split (Py.join (String c "") parts) c = parts.
Proof.
  unfold Py.join.
  induction parts as [|p parts IH]; [congruence|].
  intros _. simpl. rewrite andb_true_iff. intros [Hp Hparts].
  destruct parts as [|q parts].
  - now apply split_last.
  - push_append. rewrite split_piece by exact Hp.
    rewrite IH; [reflexivity | congruence | exact Hparts].
Qed.

Lemma after_app (p s : string) : Py.after p (p +:+ s) = Some s.
Proof.
  induction p as [|x p IH]; push_append; simpl; [now destruct s|].
  now rewrite Ascii.eqb_refl.
Qed.

(** ** Percent-encoding *)

(** Decoding undoes the encoding of one byte, whatever follows. *)
Lemma unquote_quoter (c : ascii) (rest : string) :
  Url.unquote (Url.quoter c +:+ rest) = String c (Url.unquote rest).
Proof. destruct c as [[] [] [] [] [] [] [] []]; reflexivity. Qed.

Lemma unquote_quote_app (s rest : string) :
  Url.unquote (Url.quote s +:+ rest) = s +:+ Url.unquote rest.
Proof.
  induction s as [|c s IH]; [reflexivity|].
  cbn [Url.quote]. rewrite append_assoc, unquote_quoter, IH. reflexivity.
Qed.

(** The round trip of [quote]: decoding an encoded text gives the text. *)
Lemma unquote_quote (s : string) : Url.unquote (Url.quote s) = s.
Proof.
  rewrite <- (append_empty_r (Url.quote s)), unquote_quote_app.
  apply append_empty_r.
Qed.

(** A text without [%] decodes to itself. *)
Lemma unquote_plain_app (s rest : string) :
  Py.lacks "%" s = true -> Url.unquote (s +:+ rest) = s +:+ Url.unquote rest.
Proof.
  unfold Py.lacks. induction s as [|c s IH]; intros H; [reflexivity|].
  simpl in H. apply andb_true_iff in H as [Hc Hs].
  push_append. cbn [Url.unquote]. apply negb_true_iff in Hc. rewrite Hc.
  now rewrite IH.
Qed.

Lemma unquote_join_quote (fs : list string) (rest : string) :
  Url.unquote (Py.join "|" (map Url.quote fs) +:+ rest)
  = Py.join "|" fs +:+ Url.unquote rest.
Proof.
  unfold Py.join. induction fs as [|f fs IH]; [reflexivity|].
  destruct fs as [|g fs].
  - cbn [map String.concat]. apply unquote_quote_app.
  - change (String.concat "|" (map Url.quote (f :: g :: fs)))
      with (Url.quote f +:+ "|" +:+ String.concat "|" (map Url.quote (g :: fs))).
    change (String.concat "|" (f :: g :: fs))
      with (f +:+ "|" +:+ String.concat "|" (g :: fs)).
    rewrite !append_assoc, unquote_quote_app.
    rewrite (unquote_plain_app "|") by reflexivity.
    now rewrite IH.
Qed.

Lemma quoter_chars (c : ascii) : Py.all_chars Url.quoted_char (Url.quoter c) = true.
Proof. destruct c as [[] [] [] [] [] [] [] []]; reflexivity. Qed.

Lemma quote_chars (s : string) : Py.all_chars Url.quoted_char (Url.quote s) = true.
Proof.
  induction s as [|c s IH]; [reflexivity|].
  cbn [Url.quote]. now rewrite all_chars_app, quoter_chars, IH.
Qed.

Lemma quote_lacks (c : ascii) (s : string) :
  Url.quoted_char c = false -> Py.lacks c (Url.quote s) = true.
Proof.
  intros Hc. apply (all_chars_weaken Url.quoted_char); [|apply quote_chars].
  intros x Hx. apply negb_true_iff. destruct (Ascii.eqb_spec x c); [congruence | reflexivity].
Qed.

(** One step of [unquote]. *)
Lemma unquote_cons (c : ascii) (t : string) :
  Url.unquote (String c t) =
    if Ascii.eqb c "%" then
      match t with
      | String h1 (String h2 rest) =>
          match Url.hex_value h1, Url.hex_value h2 with
          | Some a, Some b => String (ascii_of_nat (16 * a + b)) (Url.unquote rest)
          | _, _ => String c (Url.unquote t)
          end
      | _ => String c (Url.unquote t)
      end
    else String c (Url.unquote t).
Proof. reflexivity. Qed.

(** Decoding stops cleanly before a character that is no hexadecimal digit:
    the text before it decodes on its own. *)
Lemma unquote_app_stop_bounded (n : nat) : forall (a : string) (c : ascii) (b : string),
  (String.length a <= n)%nat ->
  Url.hex_value c = None ->
  Url.unquote (a +:+ String c b) = Url.unquote a +:+ Url.unquote (String c b).
Proof.
  induction n as [|n IH]; intros a c b Hlen Hc.
  - destruct a; [reflexivity | simpl in Hlen; lia].
  - destruct a as [|x a]; [reflexivity|].
    simpl in Hlen. rewrite append_cons.
    rewrite (unquote_cons x (a +:+ String c b)), (unquote_cons x a).
    destruct (Ascii.eqb x "%") eqn:Hx.
    + destruct a as [|h1 [|h2 a]].
      * rewrite append_empty_l. destruct b; rewrite ?Hc; reflexivity.
      * rewrite append_cons, append_empty_l, Hc.
        replace (String h1 (String c b)) with (String h1 "" +:+ String c b) by reflexivity.
        rewrite IH by (assumption || (simpl in *; lia)).
        destruct (Url.hex_value h1); reflexivity.
      * rewrite !append_cons.
        replace (String h1 (String h2 (a +:+ String c b)))
          with (String h1 (String h2 a) +:+ String c b) by reflexivity.
        simpl in Hlen.
        rewrite (IH (String h1 (String h2 a))) by (assumption || (simpl; lia)).
        rewrite (IH a) by (assumption || lia).
        destruct (Url.hex_value h1), (Url.hex_value h2); reflexivity.
    + rewrite IH by (assumption || lia). reflexivity.
Qed.

Lemma unquote_app_stop (a : string) (c : ascii) (b : string) :
  Url.hex_value c = None ->
  Url.unquote (a +:+ String c b) = Url.unquote a +:+ Url.unquote (String c b).
Proof. apply (unquote_app_stop_bounded (String.length a)). lia. Qed.

(** ** Printed numbers *)

Lemma string_of_uint_chars (d : Decimal.uint) :
  Py.all_chars Float.repr_char (NilEmpty.string_of_uint d) = true.
Proof. induction d; simpl; auto. Qed.

Lemma str_int_chars (n : Z) : Py.all_chars Float.repr_char (Py.str_int n) = true.
Proof.
  unfold Py.str_int, NilZero.string_of_int, NilZero.string_of_uint.
  destruct (Z.to_int n) as [d|d]; destruct d; try reflexivity;
    first [ apply string_of_uint_chars
          | apply (string_of_uint_chars (Decimal.D0 _)) ].
Qed.

Lemma pad2_chars (s : string) :
  Py.all_chars Float.repr_char s = true -> Py.all_chars Float.repr_char (Py.pad2 s) = true.
Proof. destruct s as [|c [|c' s]]; simpl; auto. Qed.

Lemma zeros_chars (n : nat) : Py.all_chars Float.repr_char (Float.zeros n) = true.
Proof. induction n; simpl; auto. Qed.

Lemma repr_finite_chars (digits : string) (decpt : Z) :
  Py.all_chars Float.repr_char digits = true ->
  Py.all_chars Float.repr_char (Float.repr_finite digits decpt) = true.
Proof.
  intros H. unfold Float.repr_finite.
  destruct (_ || _).
  - rewrite !all_chars_app. rewrite pad2_chars by apply str_int_chars.
    assert (Py.all_chars Float.repr_char
              match digits with
              | String d (String d' rest) => String d ("." +:+ String d' rest)
              | _ => digits
              end = true) as ->.
    { destruct digits as [|d [|d' rest]]; exact H. }
    now destruct (_ <? _)%Z.
  - destruct (_ <=? _)%Z.
    + now rewrite !all_chars_app, zeros_chars, H.
    + destruct (_ <=? _)%Z.
      * now rewrite !all_chars_app, zeros_chars, H.
      * rewrite !all_chars_app, !all_chars_substring by exact H. reflexivity.
Qed.

(** [repr] prints only its own characters. *)
Lemma repr_chars (x : spec_float) : Py.all_chars Float.repr_char (Float.repr x) = true.
Proof.
  destruct x as [[]|[]| |s m e]; try reflexivity.
  unfold Float.repr.
  destruct (Float.magnitude m e) as [num den].
  destruct (Float.shortest _ _ _ _ _ _) as [c n].
  rewrite all_chars_app, repr_finite_chars by apply str_int_chars.
  now destruct s.
Qed.

Lemma repr_lacks (c : ascii) (x : spec_float) :
  Float.repr_char c = false -> Py.lacks c (Float.repr x) = true.
Proof.
  intros Hc. apply (all_chars_weaken Float.repr_char); [|apply repr_chars].
  intros y Hy. apply negb_true_iff. destruct (Ascii.eqb_spec y c); [congruence | reflexivity].
Qed.

(** ** The deep link *)

Lemma unquote_opening (r : string) :
  Url.unquote ("Hello Admin,%0A%0A" +:+ "I'm interested in the following Group:%0A"
               +:+ "📘 Group: " +:+ r)
  = "Hello Admin," +:+ Py.LF +:+ Py.LF
    +:+ "I'm interested in the following Group:" +:+ Py.LF
    +:+ "📘 Group: " +:+ Url.unquote r.
Proof. reflexivity. Qed.

Lemma unquote_price_label (r : string) :
  Url.unquote ("%0A" +:+ "💰 Price: ₹" +:+ r) = Py.LF +:+ "💰 Price: ₹" +:+ Url.unquote r.
Proof. reflexivity. Qed.

Lemma unquote_features_label (r : string) :
  Url.unquote ("%0A" +:+ "📋 Features: " +:+ r) = Py.LF +:+ "📋 Features: " +:+ Url.unquote r.
Proof. reflexivity. Qed.

Lemma unquote_closing :
  Url.unquote ("%0A%0A" +:+ "Please provide payment details.")
  = Py.LF +:+ Py.LF +:+ "Please provide payment details.".
Proof. reflexivity. Qed.

(** Decoding the pre-filled message gives the message with the fields as
    they are in the table. *)
Lemma unquote_message_text (course : Course) :
  Url.unquote (message_text course) = plain_message course.
Proof.
  unfold message_text, plain_message.
  rewrite unquote_opening, unquote_quote_app, unquote_price_label.
  rewrite unquote_plain_app by (apply repr_lacks; reflexivity).
  rewrite unquote_features_label, unquote_join_quote, unquote_closing.
  reflexivity.
Qed.

Lemma split_line (a b : string) :
  Py.lacks (ascii_of_nat 10) a = true ->
  Py.split (a +:+ Py.LF +:+ b) (ascii_of_nat 10) = a :: Py.split b (ascii_of_nat 10).
Proof. apply split_piece. Qed.

Lemma split_blank (b : string) :
  Py.split (Py.LF +:+ b) (ascii_of_nat 10) = "" :: Py.split b (ascii_of_nat 10).
Proof. apply (split_piece _ ""). reflexivity. Qed.

Lemma forallb_both {A : Type} (P Q : A -> bool) (l : list A) :
  forallb (fun x => P x && Q x) l = forallb P l && forallb Q l.
Proof.
  induction l as [|x l IH]; simpl; [reflexivity|].
  rewrite IH. destruct (P x), (Q x), (forallb P l); reflexivity.
Qed.

(** The fields can be read back from the plain message. *)
Lemma read_back_plain_message (course : Course) :
  fits_lines course = true ->
  read_back (plain_message course)
  = Some (name course, Float.repr (price course), features course).
Proof.
  unfold fits_lines. rewrite forallb_both, !andb_true_iff, negb_true_iff, Nat.eqb_neq.
  intros [[Hname [Hlf Hbar]] Hlen].
  unfold read_back, plain_message.
  rewrite split_line by reflexivity.
  rewrite split_blank.
  rewrite split_line by reflexivity.
  rewrite <- (append_assoc "📘 Group: " (name course)).
  rewrite split_line by (unfold Py.lacks in *; rewrite all_chars_app, Hname; reflexivity).
  rewrite <- (append_assoc "💰 Price: ₹" (Float.repr (price course))).
  rewrite split_line.
  2:{ pose proof (repr_lacks (ascii_of_nat 10) (price course) eq_refl) as Hrepr.
      unfold Py.lacks in *. rewrite all_chars_app, Hrepr. reflexivity. }
  rewrite <- (append_assoc "📋 Features: " (Py.join "|" (features course))).
  rewrite split_line.
  2:{ unfold Py.lacks in *. rewrite all_chars_app.
      rewrite (all_chars_join _ "|") by (reflexivity || exact Hlf). reflexivity. }
  rewrite split_blank.
  rewrite split_last by reflexivity.
  rewrite !after_app.
  rewrite (split_join "|"); [reflexivity | | exact Hbar].
  intros E. apply Hlen. now rewrite E.
Qed.

(** C1. Percent-decoding the deep link gives back the name, the printed
    price and the list of features exactly as they are in the table, for
    every course and every handle, whatever characters the fields hold
    (spaces, [&], [%], bytes of non-ASCII text): the decoded link is the
    plain message behind the decoded address; from it the three fields are
    read back whenever they fit its lines.  For every course of the table,
    the link is the address of the first button of its detail keyboard, the
    fields fit the lines, and the printed price reads as the price itself. *)
Theorem deep_link_round_trip :
  (forall (ADMIN_USERNAME : option string) (course : Course),
      Url.unquote (deep_link ADMIN_USERNAME course)
      = Url.unquote ("https://t.me/" +:+ Py.fmt_opt ADMIN_USERNAME)
        +:+ "?text=" +:+ plain_message course)
  /\ (forall course : Course,
         fits_lines course = true ->
         read_back (Url.unquote (message_text course))
         = Some (name course, Float.repr (price course), features course))
  /\ Forall (fun entry : string * Course =>
               (forall ADMIN_USERNAME : option string,
                   create_course_detail_keyboard ADMIN_USERNAME (fst entry)
                   = Some [ [ {| text := "Contact Admin";
                                 callback_data := None;
                                 url := Some (deep_link ADMIN_USERNAME (snd entry)) |} ];
                            [ back_button ] ])
               /\ fits_lines (snd entry) = true
               /\ Float.of_text (Float.repr (price (snd entry))) = Some (price (snd entry)))
            COURSE_DATA.
Proof.
  split; [|split].
  - intros admin course. unfold deep_link.
    rewrite <- (append_assoc "https://t.me/" (Py.fmt_opt admin)).
    change ("?text=" +:+ message_text course)
      with (String "?" ("text=" +:+ message_text course)).
    rewrite unquote_app_stop by reflexivity.
    change (String "?" ("text=" +:+ message_text course))
      with ("?text=" +:+ message_text course).
    rewrite (unquote_plain_app "?text=") by reflexivity.
    now rewrite unquote_message_text.
  - intros course Hfits. rewrite unquote_message_text.
    now apply read_back_plain_message.
  - repeat constructor; try (vm_compute; reflexivity); intros admin; reflexivity.
Qed.

Lemma deep_link_round_trip_witness :
  fits_lines sample_course = true
  /\ read_back (Url.unquote (message_text sample_course))
     = Some (name sample_course, Float.repr (price sample_course), features sample_course).
Proof.
  split; [reflexivity|].
  apply (proj1 (proj2 deep_link_round_trip) sample_course). reflexivity.
Defined.

(** ** Separators of the deep link *)

Lemma prefix_empty (s : string) : String.prefix "" s = true.
Proof. now destruct s. Qed.

Lemma count_char_cons (c x : ascii) (s : string) :
  Py.count (String x s) (String c "")
  = ((if Ascii.eqb c x then 1 else 0) + Py.count s (String c ""))%nat.
Proof.
  unfold Py.count. cbn [Py.count_from String.prefix String.length].
  rewrite prefix_empty.
  destruct (ascii_dec c x) as [->|Hne].
  - now rewrite Ascii.eqb_refl.
  - apply Ascii.eqb_neq in Hne. now rewrite Hne.
Qed.

Lemma count_char_app (c : ascii) (a b : string) :
  Py.count (a +:+ b) (String c "")
  = (Py.count a (String c "") + Py.count b (String c ""))%nat.
Proof.
  induction a as [|x a IH]; [reflexivity|].
  rewrite append_cons, !count_char_cons, IH. lia.
Qed.

Lemma count_char_lacks (c : ascii) (s : string) :
  Py.lacks c s = true -> Py.count s (String c "") = 0%nat.
Proof.
  unfold Py.lacks. induction s as [|x s IH]; [reflexivity|].
  cbn [Py.all_chars]. rewrite andb_true_iff, negb_true_iff. intros [Hx Hs].
  rewrite count_char_cons, IH by exact Hs.
  rewrite Ascii.eqb_sym, Hx. reflexivity.
Qed.

Lemma count_char_join (c : ascii) (parts : list string) :
  forallb (Py.lacks c) parts = true ->
  Py.count (Py.join (String c "") parts) (String c "") = (length parts - 1)%nat.
Proof.
  unfold Py.join. induction parts as [|p parts IH]; [reflexivity|].
  simpl forallb. rewrite andb_true_iff. intros [Hp Hparts].
  destruct parts as [|q parts].
  - simpl. now apply count_char_lacks.
  - change (String.concat (String c "") (p :: q :: parts))
      with (p +:+ String c "" +:+ String.concat (String c "") (q :: parts)).
    rewrite !count_char_app, IH by exact Hparts.
    rewrite count_char_lacks by exact Hp.
    rewrite count_char_cons, Ascii.eqb_refl. simpl. lia.
Qed.

Lemma count_newline_quoter (c : ascii) (rest : string) :
  Py.count_from "%0A" (Url.quoter c +:+ rest) 0
  = ((if Ascii.eqb c (ascii_of_nat 10) then 1 else 0) + Py.count_from "%0A" rest 0)%nat.
Proof.
  destruct c as [[] [] [] [] [] [] [] []]; try reflexivity.
  destruct rest; reflexivity.
Qed.

Lemma count_newline_other (x : ascii) (s : string) :
  Ascii.eqb x "%" = false ->
  Py.count_from "%0A" (String x s) 0 = Py.count_from "%0A" s 0.
Proof.
  intros Hx. cbn [Py.count_from String.prefix].
  destruct (ascii_dec "%" x) as [<-|_]; [discriminate | reflexivity].
Qed.

Lemma count_newline_quote (s rest : string) :
  Py.lacks (ascii_of_nat 10) s = true ->
  Py.count_from "%0A" (Url.quote s +:+ rest) 0 = Py.count_from "%0A" rest 0.
Proof.
  unfold Py.lacks. induction s as [|c s IH]; [reflexivity|].
  cbn [Py.all_chars Url.quote]. rewrite andb_true_iff, negb_true_iff. intros [Hc Hs].
  rewrite append_assoc, count_newline_quoter, Hc. now apply IH.
Qed.

Lemma count_newline_plain (s rest : string) :
  Py.lacks "%" s = true ->
  Py.count_from "%0A" (s +:+ rest) 0 = Py.count_from "%0A" rest 0.
Proof.
  unfold Py.lacks. induction s as [|c s IH]; [reflexivity|].
  cbn [Py.all_chars]. rewrite andb_true_iff, negb_true_iff. intros [Hc Hs].
  rewrite append_cons, count_newline_other by exact Hc. now apply IH.
Qed.

Lemma count_newline_join (fs : list string) (rest : string) :
  forallb (Py.lacks (ascii_of_nat 10)) fs = true ->
  Py.count_from "%0A" (Py.join "|" (map Url.quote fs) +:+ rest) 0
  = Py.count_from "%0A" rest 0.
Proof.
  unfold Py.join. induction fs as [|f fs IH]; [reflexivity|].
  simpl forallb. rewrite andb_true_iff. intros [Hf Hfs].
  destruct fs as [|g fs].
  - cbn [map String.concat]. now apply count_newline_quote.
  - change (String.concat "|" (map Url.quote (f :: g :: fs)))
      with (Url.quote f +:+ "|" +:+ String.concat "|" (map Url.quote (g :: fs))).
    rewrite !append_assoc, count_newline_quote by exact Hf.
    rewrite (count_newline_plain "|") by reflexivity.
    now apply IH.
Qed.

Lemma count_newline_opening (r : string) :
  Py.count_from "%0A"
    ("Hello Admin,%0A%0A" +:+ "I'm interested in the following Group:%0A"
     +:+ "📘 Group: " +:+ r) 0
  = (3 + Py.count_from "%0A" r 0)%nat.
Proof. reflexivity. Qed.

Lemma count_newline_price_label (r : string) :
  Py.count_from "%0A" ("%0A" +:+ "💰 Price: ₹" +:+ r) 0 = (1 + Py.count_from "%0A" r 0)%nat.
Proof. reflexivity. Qed.

Lemma count_newline_features_label (r : string) :
  Py.count_from "%0A" ("%0A" +:+ "📋 Features: " +:+ r) 0 = (1 + Py.count_from "%0A" r 0)%nat.
Proof. reflexivity. Qed.

(** The line breaks of the message are the seven of its template when no
    field holds a line feed. *)
Lemma count_newline_message (course : Course) :
  single_lines course = true ->
  Py.count (message_text course) "%0A" = 7%nat.
Proof.
  unfold single_lines. rewrite andb_true_iff. intros [Hname Hfeatures].
  unfold Py.count, message_text.
  rewrite count_newline_opening, count_newline_quote by exact Hname.
  rewrite count_newline_price_label.
  rewrite count_newline_plain by (apply repr_lacks; reflexivity).
  rewrite count_newline_features_label, count_newline_join by exact Hfeatures.
  reflexivity.
Qed.

(** The delimiter occurs between the features and nowhere else. *)
Lemma count_delimiter_message (course : Course) :
  Py.count (message_text course) "|" = (length (features course) - 1)%nat.
Proof.
  unfold message_text. rewrite !count_char_app.
  rewrite (count_char_lacks "|" (Url.quote _)) by (apply quote_lacks; reflexivity).
  rewrite (count_char_lacks "|" (Float.repr _)) by (apply repr_lacks; reflexivity).
  rewrite count_char_join.
  - rewrite !count_char_lacks by reflexivity. rewrite length_map. lia.
  - rewrite forallb_forall. intros q Hq. apply in_map_iff in Hq as [f [<- _]].
    apply quote_lacks. reflexivity.
Qed.

(** An encoded field holds the delimiter never, and the text of a line
    break only for a line feed of the field. *)
Lemma quote_keeps_separators_out (field : string) :
  Py.count (Url.quote field) "|" = 0%nat
  /\ (Py.lacks (ascii_of_nat 10) field = true -> Py.count (Url.quote field) "%0A" = 0%nat).
Proof.
  split.
  - apply count_char_lacks, quote_lacks. reflexivity.
  - intros Hfield. unfold Py.count.
    rewrite <- (append_empty_r (Url.quote field)).
    now rewrite count_newline_quote.
Qed.

(** Outside the table: the source prints the price into the message without
    [quote] (line 81).  At [odd_course] the printed price is [1e+16], which
    percent-encoding would change, so there the message differs from the
    one with every field encoded.  No price of the table is printed with
    such a character. *)
Remark unquoted_price_outside_table :
  Float.repr (price odd_course) = "1e+16"
  /\ Url.quote (Float.repr (price odd_course)) = "1e%2B16"
  /\ message_text odd_course <> message_text_as_specified odd_course.
Proof.
  repeat split; try (vm_compute; reflexivity).
  apply String.eqb_neq. vm_compute. reflexivity.
Qed.

(** C2. For every course of the table, the link of the detail keyboard is
    the one in which the name, each feature and the printed price are each
    percent-encoded on their own and then joined by the template: the
    address is [https://t.me/], the handle, [?text=] and that message; the
    message has exactly the seven [%0A] of its template and exactly one
    delimiter between two features, and no encoded field of it holds a
    [%0A] or a delimiter.  Whatever the fields hold, an encoded name or
    feature never holds the delimiter, holds [%0A] only for a line feed of
    its own, and the delimiter occurs in the message exactly between the
    features.  For an id that is not in the table no link is built. *)
Theorem deep_link_separators :
  Forall (fun entry : string * Course =>
            let course := snd entry in
            (forall ADMIN_USERNAME : option string,
                create_course_detail_keyboard ADMIN_USERNAME (fst entry)
                = Some [ [ {| text := "Contact Admin";
                              callback_data := None;
                              url := Some ("https://t.me/" +:+ Py.fmt_opt ADMIN_USERNAME
                                           +:+ "?text="
                                           +:+ message_text_as_specified course) |} ];
                         [ back_button ] ])
            /\ Py.count (message_text_as_specified course) "%0A" = 7%nat
            /\ Py.count (message_text_as_specified course) "|"
               = (length (features course) - 1)%nat
            /\ Forall (fun field =>
                         Py.count (Url.quote field) "%0A" = 0%nat
                         /\ Py.count (Url.quote field) "|" = 0%nat)
                 (name course :: Float.repr (price course) :: features course))
         COURSE_DATA
  /\ (forall field : string,
         Py.count (Url.quote field) "|" = 0%nat
         /\ (Py.lacks (ascii_of_nat 10) field = true ->
             Py.count (Url.quote field) "%0A" = 0%nat))
  /\ (forall course : Course,
         Py.count (message_text course) "|" = (length (features course) - 1)%nat)
  /\ (forall course : Course,
         single_lines course = true ->
         Py.count (message_text course) "%0A" = 7%nat)
  /\ (forall (ADMIN_USERNAME : option string) (course_id : string),
         dict_get COURSE_DATA course_id = None ->
         create_course_detail_keyboard ADMIN_USERNAME course_id = None).
Proof.
  split; [|split; [exact quote_keeps_separators_out|]].
  - repeat constructor; try (vm_compute; reflexivity); intros admin; reflexivity.
  - split; [exact count_delimiter_message|].
    split; [exact count_newline_message|].
    intros admin course_id Hunknown. unfold create_course_detail_keyboard.
    now rewrite Hunknown.
Qed.

Lemma deep_link_separators_witness :
  single_lines sample_course = true
  /\ Py.count (message_text sample_course) "%0A" = 7%nat.
Proof.
  split; [reflexivity|].
  apply (proj1 (proj2 (proj2 (proj2 deep_link_separators))) sample_course). reflexivity.
Defined.

(** ** Prices of the table *)

(** C3. Every price of the table is printed as its whole part, a point and
    exactly two digits: 30.00, 50.00 and 100.00 give [30.00], [50.00] and
    [100.00], both in the labels of the selection keyboard and in the text
    of the detail view. *)
Theorem catalog_prices_rendered :
  Forall2 (fun (entry : string * Course) (shown : string) =>
             two_minor_digits shown = true
             /\ price_text (price (snd entry)) = Ok ("₹" +:+ shown)
             /\ course_row entry
                = Ok [ {| text := name (snd entry) +:+ " (₹" +:+ shown +:+ ")";
                          callback_data := Some ("select_course_" +:+ fst entry);
                          url := None |} ]
             /\ description_text (snd entry)
                = Ok ("📘 " +:+ name (snd entry) +:+ " 👑" +:+ Py.LF +:+ Py.LF
                      +:+ "💰 Price: ₹" +:+ shown +:+ Py.LF +:+ Py.LF
                      +:+ "📋 Features:" +:+ Py.LF +:+ "• "
                      +:+ Py.join (Py.LF +:+ "• ") (features (snd entry))
                      +:+ Py.LF +:+ Py.LF
                      +:+ "📝 Description:" +:+ Py.LF +:+ description (snd entry)))
          COURSE_DATA ["30.00"; "50.00"; "100.00"]
  /\ result_bind create_course_keyboard (fun keyboard => Ok (map (map text) keyboard))
     = Ok [ ["Ordinary Group (₹30.00)"]; ["Standard Group (₹50.00)"];
            ["Premium Group 👑 (₹100.00)"]; ["📸 Show Demo"] ].
Proof.
  split; [|vm_compute; reflexivity].
  repeat constructor; vm_compute; reflexivity.
Qed.

(** ** Taking the marker off a payload *)

Lemma prefix_app (a b : string) : String.prefix a (a +:+ b) = true.
Proof.
  induction a as [|x a IH]; [apply prefix_empty|].
  rewrite append_cons. cbn [String.prefix].
  destruct (ascii_dec x x); [exact IH | congruence].
Qed.

Lemma replace_from_skip (old new a s : string) :
  old <> "" ->
  Py.replace_from old new (a +:+ s) (String.length a) = Py.replace_from old new s 0.
Proof.
  intros Hold. induction a as [|x a IH]; [reflexivity|].
  rewrite append_cons. cbn [Py.replace_from String.length]. exact IH.
Qed.

Lemma replace_absent (old new s : string) :
  old <> "" -> Py.count_from old s 0 = 0%nat -> Py.replace_from old new s 0 = s.
Proof.
  intros Hold. destruct old as [|o old]; [congruence|].
  induction s as [|c s IH]; [reflexivity|].
  cbn [Py.count_from Py.replace_from].
  destruct (String.prefix (String o old) (String c s)); [discriminate|].
  intros Hcount. now rewrite IH.
Qed.

(** Taking a marker off a payload built from it gives back the id, when the
    id does not hold the marker itself. *)
Lemma strip_marker (marker id : string) :
  marker <> "" ->
  Py.count id marker = 0%nat ->
  Py.replace (marker +:+ id) marker "" = id.
Proof.
  intros Hmarker Hcount. destruct marker as [|m marker]; [congruence|].
  unfold Py.replace. rewrite append_cons.
  cbn [Py.replace_from].
  replace (String.length (String m marker) - 1)%nat with (String.length marker)
    by (cbn [String.length]; lia).
  rewrite <- append_cons at 1. rewrite prefix_app, append_empty_l.
  rewrite replace_from_skip by congruence.
  apply replace_absent; [congruence | exact Hcount].
Qed.

(** ** Runs of the handlers *)

Section Runs.

Context {Platform : Type}.
Variable telegram : Platform -> api_call -> option string * Platform.
Variable ADMIN_USERNAME : option string.
Variable escape_markdown : string -> string.
Variable str_update : option Update -> string.

#[local] Existing Instance M_ret.
#[local] Existing Instance M_bind.

Lemma added_app (w w' : world Platform) (es : list event) :
  trace w' = trace w ++ es -> added w w' = es.
Proof. unfold added. intros ->. apply drop_app_length. Qed.

(** *** What a coroutine adds to the trace *)

Lemma emits_ret (P : event -> Prop) {A : Type} (a : A) :
  emits P (mret a : M Platform A).
Proof. intros w. exists []. split; [symmetry; apply app_nil_r | constructor]. Qed.

Lemma emits_raise (P : event -> Prop) {A : Type} (e : exn) :
  emits P (raise e : M Platform A).
Proof. intros w. exists []. split; [symmetry; apply app_nil_r | constructor]. Qed.

Lemma emits_lift (P : event -> Prop) {A : Type} (r : result A) :
  emits P (lift r : M Platform A).
Proof. intros w. exists []. split; [symmetry; apply app_nil_r | constructor]. Qed.

Lemma emits_getattr (P : event -> Prop) {A : Type} (o : option A) (attr : string) :
  emits P (getattr o attr : M Platform A).
Proof. destruct o; [apply emits_ret | apply emits_raise]. Qed.

Lemma emits_bind (P : event -> Prop) {A B : Type} (m : M Platform A) (k : A -> M Platform B) :
  emits P m -> (forall a, emits P (k a)) -> emits P (m ≫= k).
Proof.
  intros Hm Hk w. destruct (Hm w) as [es [Ht HP]].
  unfold mbind, M_bind. destruct (m w) as [[a|e] w']; simpl in Ht.
  - destruct (Hk a w') as [es' [Ht' HP']].
    exists (es ++ es'). split; [now rewrite Ht', Ht, app_assoc | now apply Forall_app].
  - now exists es.
Qed.

Lemma emits_try_except (P : event -> Prop) {A : Type} (body : M Platform A)
    (catches : exn -> bool) (handle : exn -> M Platform A) :
  emits P body -> (forall e, emits P (handle e)) ->
  emits P (try_except body catches handle).
Proof.
  intros Hbody Hhandle w. destruct (Hbody w) as [es [Ht HP]].
  unfold try_except. destruct (body w) as [[a|e] w']; simpl in Ht.
  - now exists es.
  - destruct (catches e); [|now exists es].
    destruct (Hhandle e w') as [es' [Ht' HP']].
    exists (es ++ es'). split; [now rewrite Ht', Ht, app_assoc | now apply Forall_app].
Qed.

Lemma emits_call (P : event -> Prop) (c : api_call) :
  (forall failure, P (Called c failure)) -> emits P (call telegram c).
Proof.
  intros HP w. unfold call.
  destruct (telegram (platform w) c) as [failure next].
  exists [Called c failure]. split; [now destruct failure | now repeat constructor].
Qed.

Lemma emits_logger (P : event -> Prop) (l : level) (msg : string) :
  P (Logged l msg) -> emits P (logger l msg : M Platform unit).
Proof. intros HP w. exists [Logged l msg]. split; [reflexivity | now repeat constructor]. Qed.

Lemma emits_set_user_data (P : event -> Prop) (key : string) (value : SelectedCourse) :
  emits P (set_user_data key value : M Platform unit).
Proof. intros w. exists []. split; [symmetry; apply app_nil_r | constructor]. Qed.

Lemma emits_added (P : event -> Prop) {A : Type} (m : M Platform A) (w : world Platform) :
  emits P m -> Forall P (added w (snd (m w))).
Proof. intros Hm. destruct (Hm w) as [es [Ht HP]]. now rewrite (added_app _ _ es). Qed.

(** Every message [send_safe_message] sends or edits is one of its two
    attempts. *)
Lemma emits_send_safe_message
    (Q : string -> option InlineKeyboardMarkup -> option string -> Prop)
    (update : Update) (text : string) (reply_markup : option InlineKeyboardMarkup)
    (parse_mode : option string) :
  Q (escaped_text escape_markdown parse_mode text) reply_markup (passed_mode parse_mode) ->
  Q text reply_markup None ->
  emits (on_deliveries Q)
    (send_safe_message telegram escape_markdown update text reply_markup parse_mode).
Proof.
  intros Hfirst Hplain.
  assert (forall t k m, Q t k m -> emits (on_deliveries Q) (deliver telegram update t k m)) as Hdeliver.
  { intros t k m HQ. unfold deliver. destruct (callback_query update).
    - apply emits_call. intros; exact HQ.
    - apply emits_bind; [apply emits_getattr|]. intros _. apply emits_call. intros; exact HQ. }
  unfold send_safe_message.
  apply emits_try_except; [now apply Hdeliver|]. intros e.
  apply emits_bind; [now apply emits_logger|]. intros _.
  apply emits_try_except; [now apply Hdeliver|]. intros e'.
  apply emits_bind; [now apply emits_logger|]. intros _.
  destruct (callback_query update); [apply emits_call; intros; exact I | apply emits_ret].
Qed.


(** *** The run of [send_safe_message], outcome by outcome *)

Lemma deliver_call (update : Update) (text : string)
    (reply_markup : option InlineKeyboardMarkup) (parse_mode : option string)
    (c : api_call) :
  delivery update text reply_markup parse_mode = Some c ->
  deliver telegram update text reply_markup parse_mode = call telegram c.
Proof.
  unfold delivery, deliver.
  destruct (callback_query update); [now intros [= <-]|].
  destruct (message update); [now intros [= <-] | discriminate].
Qed.

Lemma delivery_plain (update : Update) (t t' : string)
    (k k' : option InlineKeyboardMarkup) (m m' : option string) (first : api_call) :
  delivery update t k m = Some first ->
  exists plain, delivery update t' k' m' = Some plain /\ same_addressing first plain = true.
Proof.
  unfold delivery. destruct (callback_query update); [intros [= <-]; eauto|].
  destruct (message update); [intros [= <-]; eauto | discriminate].
Qed.

Lemma send_safe_message_run (update : Update) (text : string)
    (reply_markup : option InlineKeyboardMarkup) (parse_mode : option string)
    (first plain : api_call) (w : world Platform) :
  delivery update (escaped_text escape_markdown parse_mode text) reply_markup
    (passed_mode parse_mode) = Some first ->
  delivery update text reply_markup None = Some plain ->
  send_safe_message telegram escape_markdown update text reply_markup parse_mode w
  = let '(o1, p1) := telegram (platform w) first in
    match o1 with
    | None => (Ok tt, World p1 (user_data w) (trace w ++ [Called first None]))
    | Some r1 =>
        let said := [Called first (Some r1); Logged ERROR ("Error sending message: " +:+ r1)] in
        let '(o2, p2) := telegram p1 plain in
        match o2 with
        | None => (Ok tt, World p2 (user_data w) (trace w ++ said ++ [Called plain None]))
        | Some r2 =>
            let failed := said ++ [Called plain (Some r2);
                                   Logged ERROR ("Fallback message failed: " +:+ r2)] in
            match callback_query update with
            | None => (Ok tt, World p2 (user_data w) (trace w ++ failed))
            | Some _ =>
                let '(o3, p3) := telegram p2 acknowledgment in
                (match o3 with
                 | None => Ok tt
                 | Some r3 => Raise (TelegramError r3)
                 end,
                 World p3 (user_data w) (trace w ++ failed ++ [Called acknowledgment o3]))
            end
        end
    end.
Proof.
  intros Hfirst Hplain. unfold send_safe_message, try_except.
  rewrite (deliver_call _ _ _ _ _ Hfirst), (deliver_call _ _ _ _ _ Hplain).
  unfold call, logger, record, mbind, M_bind, mret, M_ret, acknowledgment.
  destruct (telegram (platform w) first) as [[r1|] p1]; cbn; [|reflexivity].
  destruct (telegram p1 plain) as [[r2|] p2]; cbn; [|now rewrite <- !app_assoc].
  destruct (callback_query update); cbn; [|now rewrite <- !app_assoc].
  destruct (telegram p2 _) as [[r3|] p3]; cbn; now rewrite <- !app_assoc.
Qed.


Lemma send_safe_message_first (update : Update) (text : string)
    (reply_markup : option InlineKeyboardMarkup) (parse_mode : option string)
    (first : api_call) (w : world Platform) :
  delivery update (escaped_text escape_markdown parse_mode text) reply_markup
    (passed_mode parse_mode) = Some first ->
  let final := send_safe_message telegram escape_markdown update text reply_markup parse_mode w in
  exists outcome rest,
    trace (snd final) = trace w ++ Called first outcome :: rest
    /\ (outcome = None -> rest = [] /\ fst final = Ok tt).
Proof.
  intros Hfirst final. subst final.
  destruct (delivery_plain update _ text _ reply_markup _ None _ Hfirst) as [plain [Hplain _]].
  rewrite (send_safe_message_run _ _ _ _ _ _ _ Hfirst Hplain).
  destruct (telegram (platform w) first) as [[r1|] p1]; [|eexists None, []; now split].
  destruct (telegram p1 plain) as [[r2|] p2]; [|eexists (Some r1), _; now split].
  destruct (callback_query update); [|eexists (Some r1), _; now split].
  destruct (telegram p2 acknowledgment) as [o3 p3]. eexists (Some r1), _; now split.
Qed.

(** C4. When the first attempt of [send_safe_message] is rejected, exactly
    one more message is attempted: the same kind of call (an edit for a
    callback query, a reply for a command), with the text as it was given,
    no parse mode and the same keyboard; and when the platform accepts that
    attempt, [send_safe_message] returns normally with nothing else done. *)
Theorem send_safe_message_falls_back (update : Update) (text : string)
    (reply_markup : option InlineKeyboardMarkup) (parse_mode : option string)
    (w : world Platform) (first : api_call) (reason : string) (p1 : Platform) :
  delivery update (escaped_text escape_markdown parse_mode text) reply_markup
    (passed_mode parse_mode) = Some first ->
  telegram (platform w) first = (Some reason, p1) ->
  exists plain : api_call,
    delivery update text reply_markup None = Some plain
    /\ same_addressing first plain = true
    /\ let outcome := fst (telegram p1 plain) in
       let final :=
         send_safe_message telegram escape_markdown update text reply_markup parse_mode w in
       List.filter is_delivery (added w (snd final))
       = [Called first (Some reason); Called plain outcome]
       /\ (outcome = None ->
           fst final = Ok tt
           /\ added w (snd final)
              = [Called first (Some reason);
                 Logged ERROR ("Error sending message: " +:+ reason);
                 Called plain None]).
Proof.
  intros Hfirst Hrejected.
  destruct (delivery_plain update _ text _ reply_markup _ None _ Hfirst)
    as [plain [Hplain Hsame]].
  exists plain. split; [exact Hplain|]. split; [exact Hsame|].
  rewrite (send_safe_message_run _ _ _ _ _ _ _ Hfirst Hplain), Hrejected.
  unfold delivery in Hfirst, Hplain.
  destruct (callback_query update), (message update);
    inversion Hfirst; inversion Hplain; subst first plain;
    (destruct (telegram p1 _) as [[r2|] p2]; cbn [fst snd];
     [ split; [|discriminate];
       try destruct (telegram p2 acknowledgment) as [o3 p3];
       cbn [fst snd]; erewrite added_app by reflexivity; reflexivity
     | erewrite added_app by reflexivity; split; [reflexivity | now split] ]).
Qed.

(** C5 (amended). When both attempts to edit the message of a button press
    are rejected, [send_safe_message] sends no further message: it logs the
    two failures and answers the callback query with the short apology.  It
    returns normally when the platform accepts that answer, and raises the
    [TelegramError] of the answer when the platform rejects it too. *)
Theorem send_safe_message_last_resort (update : Update) (query : CallbackQuery)
    (text : string) (reply_markup : option InlineKeyboardMarkup)
    (parse_mode : option string) (w : world Platform)
    (r1 r2 : string) (p1 p2 : Platform) :
  let first := EditMessageText (escaped_text escape_markdown parse_mode text)
                 reply_markup (passed_mode parse_mode) in
  let plain := EditMessageText text reply_markup None in
  callback_query update = Some query ->
  telegram (platform w) first = (Some r1, p1) ->
  telegram p1 plain = (Some r2, p2) ->
  let outcome := fst (telegram p2 acknowledgment) in
  let final :=
    send_safe_message telegram escape_markdown update text reply_markup parse_mode w in
  added w (snd final)
  = [Called first (Some r1);
     Logged ERROR ("Error sending message: " +:+ r1);
     Called plain (Some r2);
     Logged ERROR ("Fallback message failed: " +:+ r2);
     Called acknowledgment outcome]
  /\ fst final = match outcome with
                 | None => Ok tt
                 | Some r3 => Raise (TelegramError r3)
                 end.
Proof.
  intros first plain Hquery Hfirst Hplain outcome final. subst outcome final.
  rewrite (send_safe_message_run update text reply_markup parse_mode first plain)
    by (unfold delivery; now rewrite Hquery).
  rewrite Hfirst, Hplain, Hquery.
  destruct (telegram p2 acknowledgment) as [o3 p3]. cbn [fst snd].
  split; [now erewrite added_app by reflexivity | reflexivity].
Qed.


(** *** Coroutines that leave [context.user_data] alone *)

Lemma keeps_ret {A : Type} (a : A) : keeps_user_data (mret a : M Platform A).
Proof. intros w. reflexivity. Qed.

Lemma keeps_raise {A : Type} (e : exn) : keeps_user_data (raise e : M Platform A).
Proof. intros w. reflexivity. Qed.

Lemma keeps_getattr {A : Type} (o : option A) (attr : string) :
  keeps_user_data (getattr o attr : M Platform A).
Proof. destruct o; intros w; reflexivity. Qed.

Lemma keeps_call (c : api_call) : keeps_user_data (call telegram c).
Proof.
  intros w. unfold call. destruct (telegram (platform w) c) as [[msg|] next]; reflexivity.
Qed.

Lemma keeps_logger (l : level) (msg : string) :
  keeps_user_data (logger l msg : M Platform unit).
Proof. intros w. reflexivity. Qed.

Lemma keeps_bind {A B : Type} (m : M Platform A) (k : A -> M Platform B) :
  keeps_user_data m -> (forall a, keeps_user_data (k a)) -> keeps_user_data (m ≫= k).
Proof.
  intros Hm Hk w. specialize (Hm w). unfold mbind, M_bind.
  destruct (m w) as [[a|e] w']; simpl in Hm; [|exact Hm].
  now rewrite Hk.
Qed.

Lemma keeps_try_except {A : Type} (body : M Platform A) (catches : exn -> bool)
    (handle : exn -> M Platform A) :
  keeps_user_data body -> (forall e, keeps_user_data (handle e)) ->
  keeps_user_data (try_except body catches handle).
Proof.
  intros Hbody Hhandle w. specialize (Hbody w). unfold try_except.
  destruct (body w) as [[a|e] w']; simpl in Hbody; [exact Hbody|].
  destruct (catches e); [|exact Hbody]. now rewrite Hhandle.
Qed.

Lemma keeps_send_safe_message (update : Update) (text : string)
    (reply_markup : option InlineKeyboardMarkup) (parse_mode : option string) :
  keeps_user_data
    (send_safe_message telegram escape_markdown update text reply_markup parse_mode).
Proof.
  assert (forall t k m, keeps_user_data (deliver telegram update t k m)) as Hdeliver.
  { intros t k m. unfold deliver. destruct (callback_query update).
    - apply keeps_call.
    - apply keeps_bind; [apply keeps_getattr|]. intros _. apply keeps_call. }
  unfold send_safe_message.
  apply keeps_try_except; [apply Hdeliver|]. intros e.
  apply keeps_bind; [apply keeps_logger|]. intros _.
  apply keeps_try_except; [apply Hdeliver|]. intros e'.
  apply keeps_bind; [apply keeps_logger|]. intros _.
  destruct (callback_query update); [apply keeps_call | apply keeps_ret].
Qed.

(** *** What the handlers send *)

Lemma emits_lift_bind (P : event -> Prop) {A B : Type} (r : result A)
    (k : A -> M Platform B) :
  (forall a, r = Ok a -> emits P (k a)) -> emits P (lift r ≫= k).
Proof.
  intros Hk w. unfold mbind, M_bind, lift. destruct r as [a|e].
  - now apply Hk.
  - exists []. split; [symmetry; apply app_nil_r | constructor].
Qed.

(** Every message a handler sends or edits carries no parse mode and one of
    three keyboards: none, the selection keyboard, or the detail keyboard
    of a course. *)
Lemma emits_handlers
    (Q : string -> option InlineKeyboardMarkup -> option string -> Prop) :
  (forall t, Q t None None) ->
  (forall t keyboard, create_course_keyboard = Ok keyboard -> Q t (Some keyboard) None) ->
  (forall t course_id, Q t (create_course_detail_keyboard ADMIN_USERNAME course_id) None) ->
  (forall callback update,
      emits (on_deliveries Q) (run telegram ADMIN_USERNAME escape_markdown callback update))
  /\ (forall update error,
         emits (on_deliveries Q) (error_handler telegram escape_markdown str_update update error)).
Proof.
  intros Hnone Hcatalog Hdetail.
  assert (forall update t,
             emits (on_deliveries Q)
               (send_safe_message telegram escape_markdown update t None None)) as Hsay.
  { intros update t. apply emits_send_safe_message; apply Hnone. }
  split.
  - intros [] update; cbn [run].
    + unfold start_command. apply emits_lift_bind. intros keyboard Hk.
      apply emits_send_safe_message; now apply Hcatalog.
    + unfold show_courses_menu. apply emits_lift_bind. intros keyboard Hk.
      apply emits_send_safe_message; now apply Hcatalog.
    + unfold select_course. apply emits_try_except.
      * apply emits_bind; [apply emits_getattr|]. intros query.
        apply emits_bind; [now apply emits_call|]. intros _.
        destruct (dict_get COURSE_DATA _); [|apply Hsay].
        apply emits_bind; [apply emits_set_user_data|]. intros _.
        apply emits_bind; [apply emits_lift|]. intros shown.
        apply emits_send_safe_message; apply Hdetail.
      * intros e. apply emits_bind; [now apply emits_logger|]. intros _. apply Hsay.
    + unfold contact_admin. apply emits_try_except.
      * apply emits_bind; [apply emits_getattr|]. intros query.
        apply emits_bind; [now apply emits_call|]. intros _.
        destruct (dict_get COURSE_DATA _); [|apply Hsay].
        apply emits_bind; [apply emits_getattr|]. intros user.
        apply emits_bind; [now apply emits_call|]. intros _. apply Hsay.
      * intros e. apply emits_bind; [now apply emits_logger|]. intros _. apply Hsay.
  - intros update error. unfold error_handler.
    apply emits_bind; [now apply emits_logger|]. intros _.
    apply emits_bind; [apply emits_getattr|]. intros upd.
    destruct (effective_message upd); [apply Hsay | apply emits_ret].
Qed.


(** *** Selecting a course that is not in the table *)

Lemma unknown_course_run (update : Update) (query : CallbackQuery) :
  callback_query update = Some query ->
  dict_get COURSE_DATA (Py.replace (data query) "select_course_" "") = None ->
  select_course telegram ADMIN_USERNAME escape_markdown update
  = try_except
      (call telegram (AnswerCallbackQuery None);;
       send_safe_message telegram escape_markdown update not_found None None)
      is_Exception
      (fun e =>
         logger ERROR ("Error selecting Group: " +:+ str_exn e);;
         send_safe_message telegram escape_markdown update generic_error None None).
Proof.
  intros Hquery Hunknown. unfold select_course. rewrite Hquery.
  unfold getattr, mbind, M_bind, mret, M_ret. cbn beta iota.
  rewrite Hunknown. reflexivity.
Qed.

(** C6 (amended). A select-item callback whose item id, as the handler
    takes it out of the payload (the payload with every [select_course_]
    removed), is not in the table never changes the session:
    [context.user_data], with any selection stored before, is left exactly
    as it was.  Every message the handler sends is the not-found message or
    the generic error message, without a keyboard.  When the platform
    accepts the handler's first call, the acknowledgment of the button
    press, the next call edits the message to the not-found text, and when
    that edit is accepted too the handler returns with nothing else done.
    When the platform rejects the acknowledgment, the handler logs the
    failure and the next call edits the message to the generic error text;
    the not-found message is not sent in that run.  The id the handler looks
    up is the payload without its prefix whenever [select_course_] does not
    occur again in the rest. *)
Theorem select_course_unknown (update : Update) (query : CallbackQuery)
    (w : world Platform) :
  callback_query update = Some query ->
  dict_get COURSE_DATA (Py.replace (data query) "select_course_" "") = None ->
  let final := select_course telegram ADMIN_USERNAME escape_markdown update w in
  let answered := fst (telegram (platform w) (AnswerCallbackQuery None)) in
  user_data (snd final) = user_data w
  /\ Forall (on_deliveries (fun t k m =>
               (t = not_found \/ t = generic_error) /\ k = None /\ m = None))
       (added w (snd final))
  /\ (answered = None ->
      exists outcome rest,
        added w (snd final)
        = Called (AnswerCallbackQuery None) None
          :: Called (EditMessageText not_found None None) outcome :: rest
        /\ (outcome = None -> rest = [] /\ fst final = Ok tt))
  /\ (forall reason : string,
         answered = Some reason ->
         exists outcome rest,
           added w (snd final)
           = Called (AnswerCallbackQuery None) (Some reason)
             :: Logged ERROR ("Error selecting Group: " +:+ reason)
             :: Called (EditMessageText generic_error None None) outcome :: rest
           /\ Forall (on_deliveries (fun t _ _ => t = generic_error)) (added w (snd final))
           /\ (outcome = None -> rest = [] /\ fst final = Ok tt))
  /\ (forall course_id : string,
         data query = "select_course_" +:+ course_id ->
         Py.count course_id "select_course_" = 0%nat ->
         Py.replace (data query) "select_course_" "" = course_id).
Proof.
  intros Hquery Hunknown final answered. subst final answered.
  rewrite (unknown_course_run update query Hquery Hunknown).
  set (Q := fun (t : string) (k : option InlineKeyboardMarkup) (m : option string) =>
              (t = not_found \/ t = generic_error) /\ k = None /\ m = None).
  set (handle := fun e : exn =>
         logger ERROR ("Error selecting Group: " +:+ str_exn e);;
         send_safe_message telegram escape_markdown update generic_error None None).
  assert (forall e, emits (on_deliveries Q) (handle e)) as Hhandle.
  { intros e. apply emits_bind; [now apply emits_logger|]. intros _.
    apply emits_send_safe_message; unfold Q; auto. }
  split; [|split; [|split; [|split]]].
  - apply keeps_try_except.
    + apply keeps_bind; [apply keeps_call|]. intros _. apply keeps_send_safe_message.
    + intros e. apply keeps_bind; [apply keeps_logger|]. intros _.
      apply keeps_send_safe_message.
  - apply emits_added, emits_try_except; [|exact Hhandle].
    apply emits_bind; [now apply emits_call|]. intros _.
    apply emits_send_safe_message; unfold Q; auto.
  - intros Haccepted. unfold try_except, mbind, M_bind, call.
    destruct (telegram (platform w) (AnswerCallbackQuery None)) as [o p1].
    cbn [fst] in Haccepted. subst o.
    set (w1 := World p1 (user_data w) (trace w ++ [Called (AnswerCallbackQuery None) None])).
    destruct (send_safe_message_first update not_found None None
                (EditMessageText not_found None None) w1) as [outcome [rest [Ht Hdone]]].
    { unfold delivery. now rewrite Hquery. }
    cbn zeta in Ht, Hdone.
    destruct (send_safe_message telegram escape_markdown update not_found None None w1)
      as [[[]|e] w2]; cbn [fst snd] in *.
    + exists outcome, rest. split; [|exact Hdone].
      apply added_app. rewrite Ht. subst w1. cbn [trace]. now rewrite <- app_assoc.
    + destruct (Hhandle e w2) as [es [Ht' _]]. cbn [is_Exception].
      exists outcome, (rest ++ es). split.
      * apply added_app. rewrite Ht', Ht. subst w1. cbn [trace].
        now rewrite <- !app_assoc.
      * intros Hnone. destruct (Hdone Hnone) as [_ Hok]. discriminate.
  - intros reason Hrejected. unfold try_except, mbind, M_bind, call.
    destruct (telegram (platform w) (AnswerCallbackQuery None)) as [o p1].
    cbn [fst] in Hrejected. subst o. cbn [is_Exception].
    subst handle. cbv beta. unfold mbind, M_bind, logger. cbn [str_exn].
    set (line := Logged ERROR ("Error selecting Group: " +:+ reason)).
    set (w2 := record line _).
    destruct (send_safe_message_first update generic_error None None
                (EditMessageText generic_error None None) w2) as [outcome [rest [Ht Hdone]]].
    { unfold delivery. now rewrite Hquery. }
    cbn zeta in Ht, Hdone.
    destruct (emits_send_safe_message (fun t _ _ => t = generic_error) update generic_error
                None None eq_refl eq_refl w2) as [es [Ht' Hes]].
    assert (trace w2
            = trace w ++ [Called (AnswerCallbackQuery None) (Some reason); line]) as Hw2.
    { subst w2. unfold record. cbn [trace]. now rewrite <- app_assoc. }
    exists outcome, rest. split; [|split; [|exact Hdone]].
    + apply added_app. rewrite Ht, Hw2. now rewrite <- app_assoc.
    + rewrite (added_app w _ (Called (AnswerCallbackQuery None) (Some reason) :: line :: es))
        by (rewrite Ht', Hw2; now rewrite <- app_assoc).
      repeat constructor. exact Hes.
  - intros course_id Hdata Hmarker. rewrite Hdata.
    apply strip_marker; [discriminate | exact Hmarker].
Qed.

(** *** The catalog *)

(** C8. The selection keyboard has one row with one selection button for
    each course of the table, in the order of the table, and then one row
    with the demo link.  The start command replies with the welcome text
    and this keyboard, the back-to-groups callback edits the message to the
    same text and keyboard, and this is so from every world, whatever ran
    before: each further attempt of the same run carries the same text and
    keyboard. *)
Theorem catalog_response :
  exists keyboard : InlineKeyboardMarkup,
    create_course_keyboard = Ok keyboard
    /\ map (map (fun b => (callback_data b, url b))) keyboard
       = map (fun entry : string * Course =>
                [(Some ("select_course_" +:+ fst entry), None)]) COURSE_DATA
         ++ [[(None, Some "https://t.me/+ukJYiqlkRLYzOTFl")]]
    /\ (forall (update : Update) (msg : Message) (w : world Platform),
           message update = Some msg ->
           callback_query update = None ->
           exists outcome rest,
             added w (snd (start_command telegram escape_markdown update w))
             = Called (ReplyText welcome_text (Some keyboard) None) outcome :: rest
             /\ Forall (on_deliveries (fun t k m =>
                          t = welcome_text /\ k = Some keyboard /\ m = None)) rest)
    /\ (forall (update : Update) (query : CallbackQuery) (w : world Platform),
           callback_query update = Some query ->
           exists outcome rest,
             added w (snd (show_courses_menu telegram escape_markdown update w))
             = Called (EditMessageText welcome_text (Some keyboard) None) outcome :: rest
             /\ Forall (on_deliveries (fun t k m =>
                          t = welcome_text /\ k = Some keyboard /\ m = None)) rest).
Proof.
  eexists. split; [vm_compute; reflexivity|].
  split; [vm_compute; reflexivity|].
  match goal with |- context [Called (ReplyText _ (Some ?kb) _)] => set (keyboard := kb) end.
  assert (create_course_keyboard = Ok keyboard) as Hkeyboard by (vm_compute; reflexivity).
  assert (forall update first w,
             delivery update welcome_text (Some keyboard) None = Some first ->
             exists outcome rest,
               added w (snd (send_safe_message telegram escape_markdown update
                               welcome_text (Some keyboard) None w))
               = Called first outcome :: rest
               /\ Forall (on_deliveries (fun t k m =>
                            t = welcome_text /\ k = Some keyboard /\ m = None)) rest)
    as Hsend.
  { intros update first w Hfirst.
    destruct (send_safe_message_first update welcome_text (Some keyboard) None first w Hfirst)
      as [outcome [rest [Ht _]]].
    exists outcome, rest. apply added_app in Ht. split; [exact Ht|].
    pose proof (emits_added _ _ w
                  (emits_send_safe_message
                     (fun t k m => t = welcome_text /\ k = Some keyboard /\ m = None)
                     update welcome_text (Some keyboard) None
                     (conj eq_refl (conj eq_refl eq_refl))
                     (conj eq_refl (conj eq_refl eq_refl)))) as Hall.
    rewrite Ht in Hall. now inversion Hall. }
  split.
  - intros update msg w Hmsg Hquery.
    unfold start_command. rewrite Hkeyboard.
    apply Hsend. unfold delivery. now rewrite Hquery, Hmsg.
  - intros update query w Hquery.
    unfold show_courses_menu. rewrite Hkeyboard.
    apply Hsend. unfold delivery. now rewrite Hquery.
Qed.

(** C9. No keyboard the program builds has a button whose payload starts
    with [contact_admin_] or is routed to the [contact_admin] handler: not
    the selection keyboard, not the detail keyboard of any course (it has the
    deep-link button and the back button), and so no keyboard attached to
    any message that any handler sends or edits. *)
Theorem no_button_reaches_contact_admin :
  result_bind create_course_keyboard (fun keyboard => Ok (no_relay_button keyboard))
  = Ok true
  /\ (forall (course_id : string) (keyboard : InlineKeyboardMarkup),
         create_course_detail_keyboard ADMIN_USERNAME course_id = Some keyboard ->
         no_relay_button keyboard = true)
  /\ (forall (callback : callback_fn) (update : Update) (w : world Platform),
         Forall (on_deliveries (fun _ k _ =>
                   match k with
                   | Some keyboard => no_relay_button keyboard = true
                   | None => True
                   end))
           (added w (snd (run telegram ADMIN_USERNAME escape_markdown callback update w))))
  /\ (forall (update : option Update) (error : exn) (w : world Platform),
         Forall (on_deliveries (fun _ k _ =>
                   match k with
                   | Some keyboard => no_relay_button keyboard = true
                   | None => True
                   end))
           (added w (snd (error_handler telegram escape_markdown str_update update error w)))).
Proof.
  assert (forall course_id keyboard,
             create_course_detail_keyboard ADMIN_USERNAME course_id = Some keyboard ->
             no_relay_button keyboard = true) as Hdetail.
  { intros course_id keyboard. unfold create_course_detail_keyboard.
    destruct (dict_get COURSE_DATA course_id); [|discriminate].
    intros [= <-]. reflexivity. }
  split; [vm_compute; reflexivity|]. split; [exact Hdetail|].
  destruct (emits_handlers
              (fun _ k _ => match k with
                            | Some keyboard => no_relay_button keyboard = true
                            | None => True
                            end)) as [Hrun Herror].
  - intros; exact I.
  - intros t keyboard Hk.
    assert (exists built, create_course_keyboard = Ok built /\ no_relay_button built = true)
      as [built [Hbuilt Hfree]] by (eexists; split; vm_compute; reflexivity).
    rewrite Hbuilt in Hk. now injection Hk as <-.
  - intros t course_id.
    destruct (create_course_detail_keyboard ADMIN_USERNAME course_id) eqn:E; [|exact I].
    now apply (Hdetail course_id).
  - split; intros; apply emits_added; auto.
Qed.

(** C10. No handler asks for a parse mode.  Without one the text of the first
    attempt is the text itself and the first attempt is the same call as
    the fallback; and every message that any handler sends or edits, in any
    run, carries no parse mode. *)
Theorem handlers_request_no_parse_mode :
  (forall text : string, escaped_text escape_markdown None text = text)
  /\ (forall (update : Update) (text : string) (reply_markup : option InlineKeyboardMarkup),
         delivery update (escaped_text escape_markdown None text) reply_markup
           (passed_mode None)
         = delivery update text reply_markup None)
  /\ (forall (callback : callback_fn) (update : Update) (w : world Platform),
         Forall (on_deliveries (fun _ _ m => m = None))
           (added w (snd (run telegram ADMIN_USERNAME escape_markdown callback update w))))
  /\ (forall (update : option Update) (error : exn) (w : world Platform),
         Forall (on_deliveries (fun _ _ m => m = None))
           (added w (snd (error_handler telegram escape_markdown str_update update error w)))).
Proof.
  split; [reflexivity|]. split; [reflexivity|].
  destruct (emits_handlers (fun _ _ m => m = None)) as [Hrun Herror]; try reflexivity.
  split; intros; apply emits_added; auto.
Qed.

End Runs.

(** ** Runs on concrete platforms *)

Lemma send_safe_message_falls_back_witness :
  let w := fresh [Some "Bad Request: can not parse entities"] in
  let first := ReplyText (escape_markdown_v2 "Hi *there*") None (Some "MarkdownV2") in
  exists plain : api_call,
    delivery command_update "Hi *there*" None None = Some plain
    /\ same_addressing first plain = true
    /\ let outcome := fst (scripted [] plain) in
       let final :=
         send_safe_message scripted escape_markdown_v2 command_update "Hi *there*" None
           (Some "MarkdownV2") w in
       List.filter is_delivery (added w (snd final))
       = [Called first (Some "Bad Request: can not parse entities"); Called plain outcome]
       /\ (outcome = None ->
           fst final = Ok tt
           /\ added w (snd final)
              = [Called first (Some "Bad Request: can not parse entities");
                 Logged ERROR ("Error sending message: "
                               +:+ "Bad Request: can not parse entities");
                 Called plain None]).
Proof.
  exact (send_safe_message_falls_back scripted escape_markdown_v2 command_update
           "Hi *there*" None (Some "MarkdownV2")
           (fresh [Some "Bad Request: can not parse entities"])
           (ReplyText (escape_markdown_v2 "Hi *there*") None (Some "MarkdownV2"))
           "Bad Request: can not parse entities" [] eq_refl eq_refl).
Defined.

(** C5 (as stated, refuted). On a platform that rejects every call, a button
    press whose two edits fail gets the acknowledgment attempted, and the
    rejection of that acknowledgment is raised by [send_safe_message]. *)
Lemma send_safe_message_can_raise :
  let final :=
    send_safe_message rejecting escape_markdown_v2 (button_press "select_course_course_a")
      "Hello" None None (fresh tt) in
  trace (snd final)
  = [Called (EditMessageText "Hello" None None) (Some "Bad Request");
     Logged ERROR "Error sending message: Bad Request";
     Called (EditMessageText "Hello" None None) (Some "Bad Request");
     Logged ERROR "Fallback message failed: Bad Request";
     Called acknowledgment (Some "Bad Request")]
  /\ fst final = Raise (TelegramError "Bad Request").
Proof. split; vm_compute; reflexivity. Qed.

Lemma send_safe_message_last_resort_witness :
  let update := button_press "select_course_course_a" in
  let w := fresh [Some "Bad Request: can not parse entities"; Some "Timed out"] in
  let first := EditMessageText (escape_markdown_v2 "Hi *there*") None (Some "MarkdownV2") in
  let plain := EditMessageText "Hi *there*" None None in
  let final :=
    send_safe_message scripted escape_markdown_v2 update "Hi *there*" None
      (Some "MarkdownV2") w in
  added w (snd final)
  = [Called first (Some "Bad Request: can not parse entities");
     Logged ERROR ("Error sending message: " +:+ "Bad Request: can not parse entities");
     Called plain (Some "Timed out");
     Logged ERROR ("Fallback message failed: " +:+ "Timed out");
     Called acknowledgment None]
  /\ fst final = Ok tt.
Proof.
  exact (send_safe_message_last_resort scripted escape_markdown_v2
           (button_press "select_course_course_a") {| data := "select_course_course_a" |}
           "Hi *there*" None (Some "MarkdownV2")
           (fresh [Some "Bad Request: can not parse entities"; Some "Timed out"])
           "Bad Request: can not parse entities" "Timed out" [Some "Timed out"] []
           eq_refl eq_refl eq_refl).
Defined.

(** C6 (as stated, refuted).  Two payloads whose item id is not in the
    table.  [select_course_nope]: when the platform rejects the
    acknowledgment of the button press (a query that is too old), the
    handler never looks the course up; it logs the failure and edits the
    message to the generic error text, and the not-found message is not
    sent.  [select_course_course_select_course_b]: the payload is routed
    to [select_course] and what follows its prefix,
    [course_select_course_b], is no id of the table; the handler removes
    every [select_course_], looks up [course_b], stores it in the session
    and shows its detail view, and the not-found message is not sent. *)
Lemma unknown_id_not_always_not_found :
  (let final :=
     select_course scripted None escape_markdown_v2 (button_press "select_course_nope")
       (fresh [Some "Query is too old"]) in
   Py.after "select_course_" "select_course_nope" = Some "nope"
   /\ dict_get COURSE_DATA "nope" = None
   /\ trace (snd final)
      = [Called (AnswerCallbackQuery None) (Some "Query is too old");
         Logged ERROR "Error selecting Group: Query is too old";
         Called (EditMessageText generic_error None None) None]
   /\ generic_error <> not_found
   /\ fst final = Ok tt)
  /\ (let payload := "select_course_course_select_course_b" in
      let final :=
        select_course accepting None escape_markdown_v2 (button_press payload) (fresh tt) in
      route_callback payload = Some Select_course
      /\ Py.after "select_course_" payload = Some "course_select_course_b"
      /\ dict_get COURSE_DATA "course_select_course_b" = None
      /\ Py.replace payload "select_course_" "" = "course_b"
      /\ user_data (fresh tt) !! "selected_course" = None
      /\ option_map selected_id (user_data (snd final) !! "selected_course")
         = Some "course_b"
      /\ forallb (fun ev =>
                    match ev with
                    | Called (EditMessageText t _ _) _ | Called (ReplyText t _ _) _ =>
                        negb (String.eqb t not_found)
                    | _ => true
                    end) (trace (snd final)) = true
      /\ List.filter is_delivery (trace (snd final)) <> []).
Proof.
  split.
  - repeat split; try (vm_compute; reflexivity).
    apply String.eqb_neq. vm_compute. reflexivity.
  - cbv zeta. repeat split; try (vm_compute; reflexivity).
    vm_compute. discriminate.
Qed.

Lemma select_course_unknown_witness :
  let w :=
    snd (select_course accepting (Some "operator") escape_markdown_v2
           (button_press "select_course_course_b") (fresh tt)) in
  let update := button_press "select_course_nope" in
  let final := select_course accepting (Some "operator") escape_markdown_v2 update w in
  let answered := fst (accepting (platform w) (AnswerCallbackQuery None)) in
  option_map selected_id (user_data w !! "selected_course") = Some "course_b"
  /\ user_data (snd final) = user_data w
  /\ Forall (on_deliveries (fun t k m =>
               (t = not_found \/ t = generic_error) /\ k = None /\ m = None))
       (added w (snd final))
  /\ (answered = None ->
      exists outcome rest,
        added w (snd final)
        = Called (AnswerCallbackQuery None) None
          :: Called (EditMessageText not_found None None) outcome :: rest
        /\ (outcome = None -> rest = [] /\ fst final = Ok tt))
  /\ (forall reason : string,
         answered = Some reason ->
         exists outcome rest,
           added w (snd final)
           = Called (AnswerCallbackQuery None) (Some reason)
             :: Logged ERROR ("Error selecting Group: " +:+ reason)
             :: Called (EditMessageText generic_error None None) outcome :: rest
           /\ Forall (on_deliveries (fun t _ _ => t = generic_error)) (added w (snd final))
           /\ (outcome = None -> rest = [] /\ fst final = Ok tt))
  /\ (forall course_id : string,
         "select_course_nope" = "select_course_" +:+ course_id ->
         Py.count course_id "select_course_" = 0%nat ->
         Py.replace "select_course_nope" "select_course_" "" = course_id).
Proof.
  split; [vm_compute; reflexivity|].
  exact (select_course_unknown accepting (Some "operator") escape_markdown_v2
           (button_press "select_course_nope") {| data := "select_course_nope" |}
           (snd (select_course accepting (Some "operator") escape_markdown_v2
                   (button_press "select_course_course_b") (fresh tt)))
           eq_refl eq_refl).
Defined.

Lemma catalog_response_witness :
  exists keyboard : InlineKeyboardMarkup,
    create_course_keyboard = Ok keyboard
    /\ (exists outcome rest,
           added (fresh tt)
             (snd (start_command accepting escape_markdown_v2 command_update (fresh tt)))
           = Called (ReplyText welcome_text (Some keyboard) None) outcome :: rest)
    /\ (exists outcome rest,
           added (fresh tt)
             (snd (show_courses_menu accepting escape_markdown_v2
                     (button_press "back_to_groups") (fresh tt)))
           = Called (EditMessageText welcome_text (Some keyboard) None) outcome :: rest).
Proof.
  destruct (catalog_response accepting escape_markdown_v2)
    as [keyboard [Hkeyboard [_ [Hstart Hback]]]].
  exists keyboard. split; [exact Hkeyboard|]. split.
  - destruct (Hstart command_update {| message_id := 1 |} (fresh tt) eq_refl eq_refl)
      as [outcome [rest [Hadded _]]].
    now exists outcome, rest.
  - destruct (Hback (button_press "back_to_groups") {| data := "back_to_groups" |}
                (fresh tt) eq_refl)
      as [outcome [rest [Hadded _]]].
    now exists outcome, rest.
Defined.

Lemma no_button_reaches_contact_admin_witness :
  exists keyboard : InlineKeyboardMarkup,
    create_course_detail_keyboard (Some "operator") "course_a" = Some keyboard
    /\ no_relay_button keyboard = true.
Proof.
  eexists. split; [reflexivity|].
  apply (proj1 (proj2 (no_button_reaches_contact_admin accepting (Some "operator")
                         escape_markdown_v2 (fun _ => "")))) with (course_id := "course_a").
  reflexivity.
Defined.

(** ** Start of the process *)

(** C7 (as stated, refuted). With the token set and no [ADMIN_USERNAME] in
    the environment the process does not abort: [main] builds the
    application, registers the handlers and starts polling. *)
Lemma startup_without_admin_username :
  let getenv := fun key : string =>
    if String.eqb key "TELEGRAM_BOT_TOKEN" then Some "123456:token" else None in
  getenv "ADMIN_USERNAME" = None
  /\ aborted (startup getenv (fun _ => None)) = false
  /\ event_loop_started (startup getenv (fun _ => None)) = true.
Proof. repeat split. Qed.

(** C7 (amended). When the bot token is absent (unset or empty) the process
    stops at start-up: it logs that the token is not set and ends with a
    [ValueError], before the application is built and before polling
    starts.  The operator handle plays no part in the start of the process:
    two environments with the same token start in the same way. *)
Theorem startup_requires_token :
  (forall (getenv : string -> option string) (library : boot_step -> option exn),
      Py.truthy (getenv "TELEGRAM_BOT_TOKEN") = false ->
      startup getenv library
      = [ BootLog ERROR "TELEGRAM_BOT_TOKEN environment variable is not set.";
          Uncaught (ValueError "TELEGRAM_BOT_TOKEN is required") ]
      /\ aborted (startup getenv library) = true
      /\ event_loop_started (startup getenv library) = false)
  /\ (forall (getenv getenv' : string -> option string) (library : boot_step -> option exn),
         getenv "TELEGRAM_BOT_TOKEN" = getenv' "TELEGRAM_BOT_TOKEN" ->
         startup getenv library = startup getenv' library).
Proof.
  split.
  - intros getenv library Habsent. unfold startup. rewrite Habsent. now repeat split.
  - intros getenv getenv' library Hsame. unfold startup. now rewrite Hsame.
Qed.

Lemma startup_requires_token_witness :
  Py.truthy None = false
  /\ startup (fun _ => None) (fun _ => None)
     = [ BootLog ERROR "TELEGRAM_BOT_TOKEN environment variable is not set.";
         Uncaught (ValueError "TELEGRAM_BOT_TOKEN is required") ].
Proof.
  split; [reflexivity|].
  apply (proj1 startup_requires_token (fun _ => None) (fun _ => None)). reflexivity.
Defined.

(* ===================================================================== *)
(** * Further properties of the program *)
(* ===================================================================== *)

(** ** Prices that are whole numbers *)

Lemma sub_self (p : spec_float) (n : Z) :
  Float.to_int p = Ok n -> SFsub Float.prec Float.emax p p = S754_zero false.
Proof.
  destruct p as [[]|[]| |s m e]; try discriminate; try reflexivity.
  intros _. unfold SFsub. now rewrite Z.sub_diag.
Qed.

(** X1. A price that is a whole number [n] (its integer part is [n] and [n]
    as a float is the price) is printed as [n] followed by [.00]. *)
Theorem price_text_whole (p : spec_float) (n : Z) :
  Float.to_int p = Ok n ->
  Float.of_int n = Ok p ->
  price_text p = Ok ("₹" +:+ Py.str_int n +:+ ".00").
Proof.
  intros Hint Hfloat. unfold price_text, mbind, result_bind_inst.
  rewrite Hint. cbn [result_bind].
  unfold Float.sub_int. rewrite Hfloat. cbn [result_bind].
  rewrite (sub_self p n Hint). reflexivity.
Qed.

Lemma price_text_whole_witness :
  price_text (Float.literal 25000 (-2)) = Ok ("₹" +:+ Py.str_int 250 +:+ ".00").
Proof. apply price_text_whole; vm_compute; reflexivity. Defined.

(** ** Characters of the pre-filled message *)

Lemma forallb_quote_lacks (c : ascii) (fs : list string) :
  Url.quoted_char c = false -> forallb (Py.lacks c) (map Url.quote fs) = true.
Proof.
  intros Hc. apply forallb_forall. intros q Hq.
  apply in_map_iff in Hq as [f [<- _]]. now apply quote_lacks.
Qed.

Lemma message_text_lacks (c : ascii) (course : Course) :
  Url.quoted_char c = false ->
  Float.repr_char c = false ->
  Py.lacks c "Hello Admin,%0A%0A" = true ->
  Py.lacks c "I'm interested in the following Group:%0A" = true ->
  Py.lacks c "📘 Group: " = true ->
  Py.lacks c "💰 Price: ₹" = true ->
  Py.lacks c "📋 Features: " = true ->
  Py.lacks c "|" = true ->
  Py.lacks c "Please provide payment details." = true ->
  Py.lacks c (message_text course) = true.
Proof.
  intros Hquoted Hrepr H1 H2 H3 H4 H5 Hbar H6.
  pose proof (quote_lacks c (name course) Hquoted) as Hname.
  pose proof (repr_lacks c (price course) Hrepr) as Hprice.
  pose proof (forallb_quote_lacks c (features course) Hquoted) as Hfeatures.
  assert (Py.lacks c "%0A" = true /\ Py.lacks c "%0A%0A" = true) as [H7 H8].
  { unfold Py.lacks in *. cbn [Py.all_chars] in H1 |- *.
    repeat (apply andb_true_iff in H1 as [? H1]).
    repeat match goal with H : negb _ = true |- _ => rewrite H; clear H end.
    now split. }
  unfold Py.lacks in *. unfold message_text. rewrite !all_chars_app.
  rewrite (all_chars_join _ "|") by assumption.
  rewrite H1, H2, H3, H4, H5, H6, H7, H8, Hname, Hprice. reflexivity.
Qed.

(** X2. Whatever the name and the features hold, the pre-filled message has
    no raw [&], [#], [=], [?] and no raw line feed: field content cannot end
    the [text] parameter of the link or start another one. *)
Theorem message_text_keeps_query_intact (course : Course) :
  Forall (fun c : ascii => Py.lacks c (message_text course) = true)
    ["&"; "#"; "="; "?"; ascii_of_nat 10]%char.
Proof. repeat constructor; apply message_text_lacks; reflexivity. Qed.

(** ** Payloads of the selection buttons *)

(** X3. The payload of a selection button, [select_course_] and then an id
    that does not itself contain [select_course_], is routed to
    [select_course], and the handler takes exactly that id out of it; the
    same holds for [contact_admin_] and the [contact_admin] handler. *)
Theorem payload_round_trip (course_id : string) :
  (Py.count course_id "select_course_" = 0%nat ->
   route_callback ("select_course_" +:+ course_id) = Some Select_course
   /\ Py.replace ("select_course_" +:+ course_id) "select_course_" "" = course_id)
  /\ (Py.count course_id "contact_admin_" = 0%nat ->
      route_callback ("contact_admin_" +:+ course_id) = Some Contact_admin
      /\ Py.replace ("contact_admin_" +:+ course_id) "contact_admin_" "" = course_id).
Proof.
  split; intros Hcount.
  - split; [|apply strip_marker; [discriminate | exact Hcount]].
    unfold route_callback, handlers. rewrite append_cons.
    cbn [first_match check_update re_match]. rewrite <- append_cons.
    replace (String.eqb ("select_course_" +:+ course_id) "back_to_groups") with false
      by reflexivity.
    replace (String.eqb ("select_course_" +:+ course_id) ("back_to_groups" +:+ Py.LF))
      with false by reflexivity.
    cbn [orb]. unfold Py.startswith. now rewrite prefix_app.
  - split; [|apply strip_marker; [discriminate | exact Hcount]].
    unfold route_callback, handlers. rewrite append_cons.
    cbn [first_match check_update re_match]. rewrite <- append_cons.
    replace (String.eqb ("contact_admin_" +:+ course_id) "back_to_groups") with false
      by reflexivity.
    replace (String.eqb ("contact_admin_" +:+ course_id) ("back_to_groups" +:+ Py.LF))
      with false by reflexivity.
    cbn [orb]. unfold Py.startswith.
    replace (String.prefix "select_course_" ("contact_admin_" +:+ course_id)) with false
      by reflexivity.
    now rewrite prefix_app.
Qed.

Lemma payload_round_trip_witness :
  route_callback ("select_course_" +:+ "course_b") = Some Select_course
  /\ Py.replace ("select_course_" +:+ "course_b") "select_course_" "" = "course_b".
Proof. apply (proj1 (payload_round_trip "course_b")). reflexivity. Defined.
(** ** The registered handlers *)


(** ** The start of the process, continued *)

(** X15. How a start ends.  The event loop is entered only with a
    non-empty token from the environment and after the four handlers and the
    error handler were registered, in the order of [main]; a start that
    ends with an exception logs a line of level ERROR or CRITICAL directly
    before it, raises once and does nothing after; and a start that ends
    without an exception is one whose polling returned. *)
Theorem startup_outcomes (getenv : string -> option string)
    (library : boot_step -> option exn) :
  let steps := startup getenv library in
  (event_loop_started steps = true ->
   exists (token : string) (rest : list boot_step),
     getenv "TELEGRAM_BOT_TOKEN" = Some token /\ token <> ""
     /\ steps = polling_prefix token ++ rest)
  /\ (aborted steps = true ->
      exists (before : list boot_step) (line : boot_step) (e : exn),
        steps = before ++ [line; Uncaught e]
        /\ is_failure_log line = true /\ aborted before = false)
  /\ (aborted steps = false ->
      exists token : string,
        getenv "TELEGRAM_BOT_TOKEN" = Some token /\ steps = polling_prefix token).
Proof.
  intros steps. subst steps. unfold startup.
  assert (forall line e, is_failure_log line = true ->
            exists (before : list boot_step) (line' : boot_step) (e' : exn),
              [line; Uncaught e] = before ++ [line'; Uncaught e']
              /\ is_failure_log line' = true /\ aborted before = false) as Hearly.
  { intros line e Hline. now exists [], line, e. }
  destruct (getenv "TELEGRAM_BOT_TOKEN") as [[|c token]|] eqn:Henv; cbn [Py.truthy negb].
  - split; [discriminate|]. split; [|discriminate]. intros _. now apply Hearly.
  - cbn [Py.fmt_opt]. unfold main.
    destruct (library (BuildApplication (String c token))) as [e|].
    + split; [discriminate|]. split; [|discriminate]. intros _.
      now exists [BuildApplication (String c token)], (BootLog CRITICAL
        ("Fatal error starting bot: " +:+ str_exn e)), e.
    + destruct (library RunPolling) as [e|].
      * split; [|split; [|discriminate]]; intros _.
        -- eexists (String c token), _. split; [reflexivity|]. split; [discriminate|].
           reflexivity.
        -- now exists (polling_prefix (String c token)), (BootLog CRITICAL
             ("Fatal error starting bot: " +:+ str_exn e)), e.
      * split; [|split; [discriminate|]]; intros _.
        -- exists (String c token), []. split; [reflexivity|]. split; [discriminate|].
           reflexivity.
        -- exists (String c token). split; reflexivity.
  - split; [discriminate|]. split; [|discriminate]. intros _. now apply Hearly.
Qed.


(** ** Runs of the handlers, continued *)

Section Handlers.

Context {Platform : Type}.
Variable telegram : Platform -> api_call -> option string * Platform.
Variable ADMIN_USERNAME : option string.
Variable escape_markdown : string -> string.
Variable str_update : option Update -> string.

#[local] Existing Instance M_ret.
#[local] Existing Instance M_bind.

Lemma added_nothing (w : world Platform) : added w w = [].
Proof. apply (added_app w w []). symmetry. apply app_nil_r. Qed.

(** An update with neither a callback query nor a message: the first
    attempt fails on the missing attribute, before any call. *)
Lemma send_safe_message_no_target (update : Update) (text : string)
    (reply_markup : option InlineKeyboardMarkup) (parse_mode : option string)
    (w : world Platform) :
  delivery update (escaped_text escape_markdown parse_mode text) reply_markup
    (passed_mode parse_mode) = None ->
  send_safe_message telegram escape_markdown update text reply_markup parse_mode w
  = (Raise (AttributeError "'NoneType' object has no attribute 'reply_text'"), w).
Proof.
  unfold delivery, send_safe_message, try_except, deliver.
  destruct (callback_query update); [discriminate|].
  destruct (message update); [discriminate|]. reflexivity.
Qed.

(** X4. [send_safe_message] is bounded and leaves the session alone: in any
    run it makes at most three calls of the Bot API, at most two of them
    sending or editing a message, adds at most five events, and does not
    change [context.user_data]. *)
Theorem send_safe_message_bounded (update : Update) (text : string)
    (reply_markup : option InlineKeyboardMarkup) (parse_mode : option string)
    (w : world Platform) :
  let final :=
    send_safe_message telegram escape_markdown update text reply_markup parse_mode w in
  (length (List.filter is_call (added w (snd final))) <= 3)%nat
  /\ (length (List.filter is_delivery (added w (snd final))) <= 2)%nat
  /\ (length (added w (snd final)) <= 5)%nat
  /\ user_data (snd final) = user_data w.
Proof.
  intros final. subst final.
  destruct (delivery update (escaped_text escape_markdown parse_mode text) reply_markup
              (passed_mode parse_mode)) as [first|] eqn:Hfirst.
  - destruct (delivery_plain update _ text _ reply_markup _ None _ Hfirst)
      as [plain [Hplain _]].
    rewrite (send_safe_message_run _ _ _ _ _ _ _ _ _ Hfirst Hplain).
    unfold delivery in Hfirst, Hplain.
    destruct (callback_query update), (message update);
      inversion Hfirst; inversion Hplain; subst first plain;
      (destruct (telegram (platform w) _) as [[r1|] p1];
       [ destruct (telegram p1 _) as [[r2|] p2];
         [ try destruct (telegram p2 acknowledgment) as [o3 p3] | ] | ];
       cbn [fst snd user_data]; erewrite added_app by reflexivity;
       cbn; repeat split; lia).
  - rewrite (send_safe_message_no_target _ _ _ _ _ Hfirst). cbn [fst snd].
    rewrite added_nothing. cbn. repeat split; lia.
Qed.

(** The reply to a message never raises. *)
Lemma reply_never_raises (update : Update) (msg : Message) (text : string)
    (reply_markup : option InlineKeyboardMarkup) (parse_mode : option string)
    (w : world Platform) :
  message update = Some msg ->
  callback_query update = None ->
  fst (send_safe_message telegram escape_markdown update text reply_markup parse_mode w)
  = Ok tt.
Proof.
  intros Hmsg Hquery.
  rewrite (send_safe_message_run telegram escape_markdown update text reply_markup parse_mode
             (ReplyText (escaped_text escape_markdown parse_mode text) reply_markup
                (passed_mode parse_mode))
             (ReplyText text reply_markup None))
    by (unfold delivery; now rewrite Hquery, Hmsg).
  rewrite Hquery.
  destruct (telegram (platform w) _) as [[r1|] p1]; [|reflexivity].
  destruct (telegram p1 _) as [[r2|] p2]; reflexivity.
Qed.

(** X5. In reply to a message (an update with a message and no callback
    query) nothing is raised, whatever the platform does: [send_safe_message]
    returns normally even when both attempts are rejected, and so does
    [start_command], which also leaves the session as it was. *)
Theorem replies_never_raise (update : Update) (msg : Message) :
  message update = Some msg ->
  callback_query update = None ->
  (forall (text : string) (reply_markup : option InlineKeyboardMarkup)
          (parse_mode : option string) (w : world Platform),
      fst (send_safe_message telegram escape_markdown update text reply_markup parse_mode w)
      = Ok tt)
  /\ (forall w : world Platform,
         let final := start_command telegram escape_markdown update w in
         fst final = Ok tt /\ user_data (snd final) = user_data w).
Proof.
  intros Hmsg Hquery. split.
  - intros. now apply (reply_never_raises update msg).
  - intros w final. subst final. unfold start_command.
    assert (exists keyboard, create_course_keyboard = Ok keyboard) as [keyboard ->]
      by (eexists; vm_compute; reflexivity).
    split.
    + now apply (reply_never_raises update msg).
    + apply keeps_send_safe_message.
Qed.

(** *** What can be raised to the framework *)

(** In the context of a button press, [send_safe_message] raises only the
    error of its rejected acknowledgment. *)
Lemma edit_raises_acknowledgment (update : Update) (query : CallbackQuery) (text : string)
    (reply_markup : option InlineKeyboardMarkup) (parse_mode : option string)
    (w : world Platform) (e : exn) :
  callback_query update = Some query ->
  let final :=
    send_safe_message telegram escape_markdown update text reply_markup parse_mode w in
  fst final = Raise e ->
  exists msg es,
    e = TelegramError msg
    /\ trace (snd final) = trace w ++ es ++ [Called acknowledgment (Some msg)].
Proof.
  intros Hquery final. subst final.
  rewrite (send_safe_message_run telegram escape_markdown update text reply_markup parse_mode
             (EditMessageText (escaped_text escape_markdown parse_mode text) reply_markup
                (passed_mode parse_mode))
             (EditMessageText text reply_markup None))
    by (unfold delivery; now rewrite Hquery).
  rewrite Hquery.
  destruct (telegram (platform w) _) as [[r1|] p1]; [|discriminate].
  destruct (telegram p1 _) as [[r2|] p2]; [|discriminate].
  destruct (telegram p2 acknowledgment) as [[r3|] p3]; [|discriminate].
  cbn [fst snd trace]. intros [= <-]. eexists r3, _. split; reflexivity.
Qed.

(** A handler body guarded by [except Exception] whose except branch logs
    and reports through [send_safe_message]. *)
Lemma guarded_raises_acknowledgment (update : Update) (query : CallbackQuery)
    (body : M Platform unit) (line : exn -> string) (report : string)
    (w : world Platform) (e : exn) :
  callback_query update = Some query ->
  emits (fun _ => True) body ->
  let final :=
    try_except body is_Exception
      (fun e => logger ERROR (line e);;
                send_safe_message telegram escape_markdown update report None None) w in
  fst final = Raise e ->
  exists msg es,
    e = TelegramError msg
    /\ added w (snd final) = es ++ [Called acknowledgment (Some msg)].
Proof.
  intros Hquery Hbody final. subst final. unfold try_except.
  destruct (Hbody w) as [es0 [Ht0 _]].
  destruct (body w) as [[[]|e0] w1]; [discriminate|]. cbn [is_Exception snd] in *.
  unfold mbind, M_bind, logger. cbn [fst snd].
  set (w2 := record (Logged ERROR (line e0)) w1).
  intros Hraise.
  destruct (edit_raises_acknowledgment update query report None None w2 e Hquery Hraise)
    as [msg [es [-> Ht]]].
  exists msg, (es0 ++ [Logged ERROR (line e0)] ++ es). split; [reflexivity|].
  apply added_app. rewrite Ht. subst w2. unfold record. cbn [trace].
  rewrite Ht0. now rewrite <- !app_assoc.
Qed.

Lemma emits_anything {A : Type} (P : event -> Prop) (m : M Platform A) :
  emits P m -> emits (fun _ => True) m.
Proof.
  intros Hm w. destruct (Hm w) as [es [Ht _]]. exists es. split; [exact Ht|].
  apply Forall_forall. intros; exact I.
Qed.

(** X6. For a button press, a handler raises nothing but the error of a
    rejected last-resort acknowledgment: when [start_command],
    [show_courses_menu], [select_course] or [contact_admin] ends with an
    exception, that exception is the [TelegramError] of the apology answer,
    and this rejected answer is the last event of the run. *)
Theorem handlers_raise_only_failed_acknowledgment (callback : callback_fn)
    (update : Update) (query : CallbackQuery) (w : world Platform) (e : exn) :
  callback_query update = Some query ->
  let final := run telegram ADMIN_USERNAME escape_markdown callback update w in
  fst final = Raise e ->
  exists msg es,
    e = TelegramError msg
    /\ added w (snd final) = es ++ [Called acknowledgment (Some msg)].
Proof.
  intros Hquery final. subst final.
  assert (exists keyboard, create_course_keyboard = Ok keyboard) as [keyboard Hkeyboard]
    by (eexists; vm_compute; reflexivity).
  destruct callback; cbn [run].
  - unfold start_command. rewrite Hkeyboard. intros Hraise.
    destruct (edit_raises_acknowledgment update query _ _ _ w e Hquery Hraise)
      as [msg [es [-> Ht]]].
    exists msg, es. split; [reflexivity | now apply added_app].
  - unfold show_courses_menu. rewrite Hkeyboard. intros Hraise.
    destruct (edit_raises_acknowledgment update query _ _ _ w e Hquery Hraise)
      as [msg [es [-> Ht]]].
    exists msg, es. split; [reflexivity | now apply added_app].
  - unfold select_course.
    apply (guarded_raises_acknowledgment update query); [exact Hquery|].
    apply (emits_anything (on_deliveries (fun _ _ _ => True))).
    apply emits_bind; [apply emits_getattr|]. intros q.
    apply emits_bind; [now apply emits_call|]. intros _.
    destruct (dict_get COURSE_DATA _).
    + apply emits_bind; [apply emits_set_user_data|]. intros _.
      apply emits_bind; [apply emits_lift|]. intros shown.
      now apply emits_send_safe_message.
    + now apply emits_send_safe_message.
  - unfold contact_admin.
    apply (guarded_raises_acknowledgment update query); [exact Hquery|].
    apply (emits_anything (on_deliveries (fun _ _ _ => True))).
    apply emits_bind; [apply emits_getattr|]. intros q.
    apply emits_bind; [now apply emits_call|]. intros _.
    destruct (dict_get COURSE_DATA _).
    + apply emits_bind; [apply emits_getattr|]. intros user.
      apply emits_bind; [now apply emits_call|]. intros _.
      now apply emits_send_safe_message.
    + now apply emits_send_safe_message.
Qed.

(** *** The relay to the operator *)

Lemma produces_of_emits {A : Type} (chat : string) (m : M Platform A) :
  emits (on_deliveries (fun t _ _ => t <> confirmation)) m ->
  produces (confirmation_backed chat) m.
Proof.
  intros Hm w. destruct (Hm w) as [es [Ht HP]]. exists es. split; [exact Ht | now left].
Qed.

Lemma confirmation_backed_app (chat : string) (es es' : list event) :
  confirmation_backed chat es -> confirmation_backed chat es' -> confirmation_backed chat (es ++ es').
Proof.
  unfold confirmation_backed, relayed_to. rewrite existsb_app.
  intros [H|H] [H'|H']; try (right; rewrite ?H, ?H'; now rewrite ?orb_true_r).
  left. now apply Forall_app.
Qed.

Lemma produces_bind {A B : Type} (chat : string) (m : M Platform A)
    (k : A -> M Platform B) :
  produces (confirmation_backed chat) m ->
  (forall a, produces (confirmation_backed chat) (k a)) ->
  produces (confirmation_backed chat) (m ≫= k).
Proof.
  intros Hm Hk w. destruct (Hm w) as [es [Ht HG]].
  unfold mbind, M_bind. destruct (m w) as [[a|e] w']; cbn [snd] in Ht.
  - destruct (Hk a w') as [es' [Ht' HG']].
    exists (es ++ es'). split; [now rewrite Ht', Ht, app_assoc | now apply confirmation_backed_app].
  - now exists es.
Qed.

Lemma produces_try_except {A : Type} (chat : string) (body : M Platform A)
    (catches : exn -> bool) (handle : exn -> M Platform A) :
  produces (confirmation_backed chat) body ->
  (forall e, produces (confirmation_backed chat) (handle e)) ->
  produces (confirmation_backed chat) (try_except body catches handle).
Proof.
  intros Hbody Hhandle w. destruct (Hbody w) as [es [Ht HG]].
  unfold try_except. destruct (body w) as [[a|e] w']; cbn [snd] in Ht.
  - now exists es.
  - destruct (catches e); [|now exists es].
    destruct (Hhandle e w') as [es' [Ht' HG']].
    exists (es ++ es'). split; [now rewrite Ht', Ht, app_assoc | now apply confirmation_backed_app].
Qed.

(** The relay and what follows it: rejected, nothing follows; accepted, the
    accepted relay is in the trace whatever follows. *)
Lemma produces_relay {A : Type} (chat inquiry : string) (k : M Platform A) :
  emits (fun _ => True) k ->
  produces (confirmation_backed chat) (call telegram (SendMessage chat inquiry);; k).
Proof.
  intros Hk w. unfold mbind, M_bind, call.
  destruct (telegram (platform w) (SendMessage chat inquiry)) as [[msg|] next]; cbn [snd].
  - eexists. split; [reflexivity|]. left. now repeat constructor.
  - match goal with |- context [k ?w1] => destruct (Hk w1) as [es [Ht _]] end.
    cbn [trace] in Ht.
    exists (Called (SendMessage chat inquiry) None :: es).
    split; [rewrite Ht; now rewrite <- app_assoc|].
    right. cbn [relayed_to existsb]. now rewrite String.eqb_refl.
Qed.

Lemma tells_sent_false (es : list event) :
  Forall (on_deliveries (fun t _ _ => t <> confirmation)) es -> tells_sent es = false.
Proof.
  induction 1 as [|ev es Hev _ IH]; [reflexivity|].
  cbn [tells_sent existsb]. fold (tells_sent es). rewrite IH, orb_false_r.
  destruct ev as [[t k m|t k m|t|chat t] f|l msg]; try reflexivity;
    cbn [on_deliveries] in Hev; now apply String.eqb_neq.
Qed.

(** X7. [contact_admin] tells the requester that the request was sent only
    when the platform accepted the message to the operator: in every run
    in which a message with the confirmation text is sent or edited, an
    accepted [send_message] to [@ADMIN_USERNAME] is in the trace. *)
Theorem confirmation_follows_relay (update : Update) (w : world Platform) :
  let es :=
    added w (snd (contact_admin telegram ADMIN_USERNAME escape_markdown update w)) in
  tells_sent es = true ->
  relayed_to ("@" +:+ Py.fmt_opt ADMIN_USERNAME) es = true.
Proof.
  set (chat := "@" +:+ Py.fmt_opt ADMIN_USERNAME).
  assert (forall u t, produces (confirmation_backed chat)
                        (send_safe_message telegram escape_markdown u t None None)
                      \/ t = confirmation) as Hsay.
  { intros u t. destruct (String.eqb_spec t confirmation) as [->|Hne]; [now right|].
    left. apply produces_of_emits. now apply emits_send_safe_message. }
  assert (produces (confirmation_backed chat)
            (contact_admin telegram ADMIN_USERNAME escape_markdown update)) as Hrun.
  { unfold contact_admin. apply produces_try_except.
    - apply produces_bind; [apply produces_of_emits, emits_getattr|]. intros query.
      apply produces_bind; [apply produces_of_emits; now apply emits_call|]. intros _.
      destruct (dict_get COURSE_DATA _).
      + apply produces_bind; [apply produces_of_emits, emits_getattr|]. intros user.
        apply produces_relay.
        apply (emits_anything (on_deliveries (fun _ _ _ => True))).
        now apply emits_send_safe_message.
      + destruct (Hsay update not_found) as [H|H]; [exact H | discriminate].
    - intros e. apply produces_bind; [apply produces_of_emits; now apply emits_logger|].
      intros _.
      destruct (Hsay update "Sorry, an error occurred while contacting the admin.")
        as [H|H]; [exact H | discriminate]. }
  intros es. subst es. destruct (Hrun w) as [es [Ht [Hquiet|Hrelayed]]].
  - rewrite (added_app _ _ _ Ht), (tells_sent_false es Hquiet). discriminate.
  - now rewrite (added_app _ _ _ Ht).
Qed.

(** Calls other than [send_message]: a property of events that every log
    line and every such call has holds of all that [send_safe_message]
    adds, and of all that the handlers without a relay add. *)
Lemma emits_send_outside_relay (P : event -> Prop) :
  (forall ev, is_relay ev = false -> P ev) ->
  forall update t k m,
    emits P (send_safe_message telegram escape_markdown update t k m).
Proof.
  intros HP update t k m.
  assert (forall t' m', emits P (deliver telegram update t' k m')) as Hdeliver.
  { intros t' m'. unfold deliver. destruct (callback_query update).
    - apply emits_call. intros; now apply HP.
    - apply emits_bind; [apply emits_getattr|]. intros _.
      apply emits_call. intros; now apply HP. }
  unfold send_safe_message.
  apply emits_try_except; [apply Hdeliver|]. intros e.
  apply emits_bind; [apply emits_logger; now apply HP|]. intros _.
  apply emits_try_except; [apply Hdeliver|]. intros e'.
  apply emits_bind; [apply emits_logger; now apply HP|]. intros _.
  destruct (callback_query update); [|apply emits_ret].
  apply emits_call. intros; now apply HP.
Qed.

Lemma emits_outside_relay (P : event -> Prop) :
  (forall ev, is_relay ev = false -> P ev) ->
  (forall update, emits P (start_command telegram escape_markdown update))
  /\ (forall update, emits P (show_courses_menu telegram escape_markdown update))
  /\ (forall update, emits P (select_course telegram ADMIN_USERNAME escape_markdown update))
  /\ (forall update error,
         emits P (error_handler telegram escape_markdown str_update update error)).
Proof.
  intros HP. pose proof (emits_send_outside_relay P HP) as Hsend.
  repeat split.
  - intros update. unfold start_command.
    apply emits_bind; [apply emits_lift|]. intros keyboard. apply Hsend.
  - intros update. unfold show_courses_menu.
    apply emits_bind; [apply emits_lift|]. intros keyboard. apply Hsend.
  - intros update. unfold select_course. apply emits_try_except.
    + apply emits_bind; [apply emits_getattr|]. intros query.
      apply emits_bind; [apply emits_call; intros; now apply HP|]. intros _.
      destruct (dict_get COURSE_DATA _); [|apply Hsend].
      apply emits_bind; [apply emits_set_user_data|]. intros _.
      apply emits_bind; [apply emits_lift|]. intros shown. apply Hsend.
    + intros e. apply emits_bind; [apply emits_logger; now apply HP|]. intros _.
      apply Hsend.
  - intros update error. unfold error_handler.
    apply emits_bind; [apply emits_logger; now apply HP|]. intros _.
    apply emits_bind; [apply emits_getattr|]. intros upd.
    destruct (effective_message upd); [apply Hsend | apply emits_ret].
Qed.

(** X8. Only [contact_admin] writes to the operator, and only to the
    operator: no run of [start_command], [show_courses_menu],
    [select_course] or [error_handler] calls [bot.send_message], and every
    [bot.send_message] of [contact_admin] goes to the chat
    [@ADMIN_USERNAME]. *)
Theorem relay_only_from_contact_admin :
  (forall (callback : callback_fn) (update : Update) (w : world Platform),
      callback <> Contact_admin ->
      Forall (fun ev => is_relay ev = false)
        (added w (snd (run telegram ADMIN_USERNAME escape_markdown callback update w))))
  /\ (forall (update : option Update) (error : exn) (w : world Platform),
         Forall (fun ev => is_relay ev = false)
           (added w (snd (error_handler telegram escape_markdown str_update update error w))))
  /\ (forall (update : Update) (w : world Platform),
         Forall (fun ev =>
                   match ev with
                   | Called (SendMessage chat _) _ =>
                       chat = "@" +:+ Py.fmt_opt ADMIN_USERNAME
                   | _ => True
                   end)
           (added w (snd (contact_admin telegram ADMIN_USERNAME escape_markdown update w)))).
Proof.
  destruct (emits_outside_relay (fun ev => is_relay ev = false))
    as [Hstart [Hshow [Hselect Herror]]]; [auto|].
  split; [|split].
  - intros [] update w Hne; cbn [run]; try congruence; now apply emits_added.
  - intros. now apply emits_added.
  - intros update w. apply emits_added.
    set (P := fun ev => match ev with
                        | Called (SendMessage chat _) _ =>
                            chat = "@" +:+ Py.fmt_opt ADMIN_USERNAME
                        | _ => True
                        end).
    assert (forall ev, is_relay ev = false -> P ev) as HP
      by (intros [[| | |] |]; intros; try exact I; discriminate).
    pose proof (emits_send_outside_relay P HP) as Hsend.
    unfold contact_admin. apply emits_try_except.
    + apply emits_bind; [apply emits_getattr|]. intros query.
      apply emits_bind; [now apply emits_call|]. intros _.
      destruct (dict_get COURSE_DATA _); [|apply Hsend].
      apply emits_bind; [apply emits_getattr|]. intros user.
      apply emits_bind; [now apply emits_call|]. intros _. apply Hsend.
    + intros e. apply emits_bind; [now apply emits_logger|]. intros _. apply Hsend.
Qed.

(** *** The keyboards the handlers show *)

(** X9. No button the program shows is dead: every keyboard sent or edited
    by a handler or by [error_handler] holds only buttons that open a link
    or whose payload is routed to [show_courses_menu], or to [select_course]
    with the id of a course of the table. *)
Theorem every_button_is_live :
  let live := on_deliveries (fun _ keyboard _ =>
                match keyboard with
                | Some kb => live_keyboard kb = true
                | None => True
                end) in
  (forall (callback : callback_fn) (update : Update) (w : world Platform),
      Forall live (added w (snd (run telegram ADMIN_USERNAME escape_markdown callback update w))))
  /\ (forall (update : option Update) (error : exn) (w : world Platform),
         Forall live
           (added w (snd (error_handler telegram escape_markdown str_update update error w)))).
Proof.
  intros live. subst live.
  destruct (emits_handlers telegram ADMIN_USERNAME escape_markdown str_update
              (fun _ keyboard _ =>
                 match keyboard with
                 | Some kb => live_keyboard kb = true
                 | None => True
                 end)) as [Hrun Herror].
  - intros; exact I.
  - intros t keyboard Hk. vm_compute in Hk. injection Hk as <-. vm_compute. reflexivity.
  - intros t course_id. unfold create_course_detail_keyboard.
    destruct (dict_get COURSE_DATA course_id); [reflexivity | exact I].
  - split; intros; now apply emits_added.
Qed.

(** *** The session *)

Lemma bind_ret {A B : Type} (a : A) (k : A -> M Platform B) : (mret a ≫= k) = k a.
Proof. reflexivity. Qed.

Lemma bind_raise {A B : Type} (e : exn) (k : A -> M Platform B) :
  (raise e ≫= k) = raise e.
Proof. reflexivity. Qed.

Lemma selects_refl (update : Update) (s : gmap string SelectedCourse) :
  selects update s s.
Proof. now left. Qed.

Lemma selects_trans (update : Update) (a b c : gmap string SelectedCourse) :
  selects update a b -> selects update b c -> selects update a c.
Proof.
  intros [->|(q & co & Hq & Hd & ->)] [->|(q' & co' & Hq' & Hd' & ->)].
  - now left.
  - right. eauto.
  - right. eauto.
  - right. exists q', co'. repeat split; try assumption. apply insert_insert_eq.
Qed.

Lemma session_of_keeps {A : Type} (update : Update) (m : M Platform A) :
  keeps_user_data m -> session_moves (selects update) m.
Proof. intros Hm w. rewrite Hm. apply selects_refl. Qed.

Lemma session_bind {A B : Type} (update : Update) (m : M Platform A)
    (k : A -> M Platform B) :
  session_moves (selects update) m ->
  (forall a, session_moves (selects update) (k a)) ->
  session_moves (selects update) (m ≫= k).
Proof.
  intros Hm Hk w. specialize (Hm w). unfold mbind, M_bind.
  destruct (m w) as [[a|e] w']; cbn [snd] in Hm; [|exact Hm].
  exact (selects_trans _ _ _ _ Hm (Hk a w')).
Qed.

Lemma session_try_except {A : Type} (update : Update) (body : M Platform A)
    (catches : exn -> bool) (handle : exn -> M Platform A) :
  session_moves (selects update) body ->
  (forall e, session_moves (selects update) (handle e)) ->
  session_moves (selects update) (try_except body catches handle).
Proof.
  intros Hbody Hhandle w. specialize (Hbody w). unfold try_except.
  destruct (body w) as [[a|e] w']; cbn [snd] in Hbody; [exact Hbody|].
  destruct (catches e); [|exact Hbody].
  exact (selects_trans _ _ _ _ Hbody (Hhandle e w')).
Qed.

Lemma keeps_start_command (update : Update) :
  keeps_user_data (start_command telegram escape_markdown update).
Proof.
  unfold start_command. apply keeps_bind; [intros w; reflexivity|].
  intros keyboard. apply keeps_send_safe_message.
Qed.

Lemma keeps_show_courses_menu (update : Update) :
  keeps_user_data (show_courses_menu telegram escape_markdown update).
Proof.
  unfold show_courses_menu. apply keeps_bind; [intros w; reflexivity|].
  intros keyboard. apply keeps_send_safe_message.
Qed.

Lemma keeps_contact_admin (update : Update) :
  keeps_user_data (contact_admin telegram ADMIN_USERNAME escape_markdown update).
Proof.
  unfold contact_admin. apply keeps_try_except.
  - apply keeps_bind; [apply keeps_getattr|]. intros query.
    apply keeps_bind; [apply keeps_call|]. intros _.
    destruct (dict_get COURSE_DATA _); [|apply keeps_send_safe_message].
    apply keeps_bind; [apply keeps_getattr|]. intros user.
    apply keeps_bind; [apply keeps_call|]. intros _. apply keeps_send_safe_message.
  - intros e. apply keeps_bind; [apply keeps_logger|]. intros _.
    apply keeps_send_safe_message.
Qed.

Lemma keeps_error_handler (update : option Update) (error : exn) :
  keeps_user_data (error_handler telegram escape_markdown str_update update error).
Proof.
  unfold error_handler. apply keeps_bind; [apply keeps_logger|]. intros _.
  apply keeps_bind; [apply keeps_getattr|]. intros upd.
  destruct (effective_message upd); [apply keeps_send_safe_message | apply keeps_ret].
Qed.

Lemma session_select_course (update : Update) :
  session_moves (selects update)
    (select_course telegram ADMIN_USERNAME escape_markdown update).
Proof.
  unfold select_course. apply session_try_except.
  - destruct (callback_query update) as [query|] eqn:Hquery; cbn [getattr].
    + rewrite bind_ret.
      apply session_bind; [apply session_of_keeps, keeps_call|]. intros _.
      destruct (dict_get COURSE_DATA _) as [course|] eqn:Hcourse.
      * apply session_bind.
        { intros w. right. exists query, course. now repeat split. }
        intros _. apply session_of_keeps.
        apply keeps_bind; [intros w; reflexivity|]. intros shown.
        apply keeps_send_safe_message.
      * apply session_of_keeps, keeps_send_safe_message.
    + rewrite bind_raise. apply session_of_keeps, keeps_raise.
  - intros e. apply session_of_keeps.
    apply keeps_bind; [apply keeps_logger|]. intros _. apply keeps_send_safe_message.
Qed.

Lemma sound_selects (update : Update) (before after : gmap string SelectedCourse) :
  selects update before after -> sound_session before -> sound_session after.
Proof.
  intros [->|(query & course & _ & Hcourse & ->)] Hsound; [exact Hsound|].
  intros stored Hstored. rewrite lookup_insert_eq in Hstored. injection Hstored as <-.
  exists course. now split.
Qed.

(** X10. Only [select_course] writes to the session, and only one entry:
    [start_command], [show_courses_menu], [contact_admin] and
    [error_handler] leave [context.user_data] as it was, and a run of
    [select_course] leaves it as it was or stores, under
    ['selected_course'], the id, name, price and features of the course of
    the table that the payload of the button names. *)
Theorem session_written_by_select_course_only :
  (forall (callback : callback_fn) (update : Update) (w : world Platform),
      callback <> Select_course ->
      user_data (snd (run telegram ADMIN_USERNAME escape_markdown callback update w))
      = user_data w)
  /\ (forall (update : option Update) (error : exn) (w : world Platform),
         user_data (snd (error_handler telegram escape_markdown str_update update error w))
         = user_data w)
  /\ (forall (update : Update) (w : world Platform),
         let after :=
           user_data (snd (select_course telegram ADMIN_USERNAME escape_markdown update w)) in
         after = user_data w
         \/ exists (query : CallbackQuery) (course : Course),
              callback_query update = Some query
              /\ dict_get COURSE_DATA (Py.replace (data query) "select_course_" "")
                 = Some course
              /\ after
                 = <["selected_course" :=
                       {| selected_id := Py.replace (data query) "select_course_" "";
                          selected_name := name course;
                          selected_price := price course;
                          selected_features := features course |}]> (user_data w)).
Proof.
  split; [|split].
  - intros [] update w Hne; cbn [run]; try congruence.
    + apply keeps_start_command.
    + apply keeps_show_courses_menu.
    + apply keeps_contact_admin.
  - intros. apply keeps_error_handler.
  - intros update w. exact (session_select_course update w).
Qed.

(** X11. The stored selection stays an entry of the table: when the
    selection stored in the session, if any, is the id, name, price and
    features of a course of [COURSE_DATA] under its own id, it still is
    after any handler or [error_handler] has run, whatever the update and
    the platform. *)
Theorem session_stays_sound (w : world Platform) :
  sound_session (user_data w) ->
  (forall (callback : callback_fn) (update : Update),
      sound_session
        (user_data (snd (run telegram ADMIN_USERNAME escape_markdown callback update w))))
  /\ (forall (update : option Update) (error : exn),
         sound_session
           (user_data (snd (error_handler telegram escape_markdown str_update update error w)))).
Proof.
  intros Hsound. split.
  - intros [] update; cbn [run].
    + now rewrite keeps_start_command.
    + now rewrite keeps_show_courses_menu.
    + exact (sound_selects update _ _ (session_select_course update w) Hsound).
    + now rewrite keeps_contact_admin.
  - intros. now rewrite keeps_error_handler.
Qed.

(** *** Selecting a course of the table *)

Lemma try_bind_ok {A B : Type} (m : M Platform A) (k : A -> M Platform B)
    (catches : exn -> bool) (handle : exn -> M Platform B)
    (w w' : world Platform) (a : A) :
  m w = (Ok a, w') ->
  try_except (m ≫= k) catches handle w = try_except (k a) catches handle w'.
Proof. intros Hm. unfold try_except, mbind, M_bind. now rewrite Hm. Qed.

Lemma try_bind_raise {A B : Type} (m : M Platform A) (k : A -> M Platform B)
    (catches : exn -> bool) (handle : exn -> M Platform B)
    (w w' : world Platform) (e : exn) :
  m w = (Raise e, w') ->
  try_except (m ≫= k) catches handle w
  = if catches e then handle e w' else (Raise e, w').
Proof. intros Hm. unfold try_except, mbind, M_bind. now rewrite Hm. Qed.

Lemma call_outcome (c : api_call) (w : world Platform) (o : option string) (p : Platform) :
  telegram (platform w) c = (o, p) ->
  call telegram c w
  = (match o with None => Ok tt | Some msg => Raise (TelegramError msg) end,
     World p (user_data w) (trace w ++ [Called c o])).
Proof. intros H. unfold call. rewrite H. now destruct o. Qed.

Lemma catalog_description (course_id : string) (course : Course) :
  dict_get COURSE_DATA course_id = Some course ->
  exists shown, description_text course = Ok shown.
Proof.
  unfold COURSE_DATA. cbn [dict_get].
  repeat (destruct (String.eqb _ course_id);
          [intros [= <-]; eexists; vm_compute; reflexivity|]).
  discriminate.
Qed.

Lemma detail_keyboard_of (course_id : string) (course : Course) :
  dict_get COURSE_DATA course_id = Some course ->
  create_course_detail_keyboard ADMIN_USERNAME course_id
  = Some (detail_keyboard ADMIN_USERNAME course).
Proof. intros H. unfold create_course_detail_keyboard. now rewrite H. Qed.

(** X12. Selecting a course of the table: once the platform has accepted
    the answer to the button press, [select_course] stores the selection
    and then edits the message to the detail view of that course, with the
    keyboard of the contact link and the back button and no parse mode.
    The selection is stored before the edit and stays stored when the edit
    is rejected; when the edit is accepted nothing else happens. *)
Theorem select_course_shows_detail (update : Update) (query : CallbackQuery)
    (course : Course) (w : world Platform) (p1 : Platform) :
  let course_id := Py.replace (data query) "select_course_" "" in
  callback_query update = Some query ->
  dict_get COURSE_DATA course_id = Some course ->
  telegram (platform w) (AnswerCallbackQuery None) = (None, p1) ->
  let final := select_course telegram ADMIN_USERNAME escape_markdown update w in
  exists (shown : string) (outcome : option string) (rest : list event),
    description_text course = Ok shown
    /\ added w (snd final)
       = Called (AnswerCallbackQuery None) None
         :: Called (EditMessageText shown (Some (detail_keyboard ADMIN_USERNAME course)) None)
              outcome
         :: rest
    /\ user_data (snd final)
       = <["selected_course" := selection_of course_id course]> (user_data w)
    /\ (outcome = None -> rest = [] /\ fst final = Ok tt).
Proof.
  intros course_id Hquery Hcourse Hack final. subst final.
  destruct (catalog_description course_id course Hcourse) as [shown Hshown].
  exists shown.
  unfold select_course. rewrite Hquery. cbn [getattr]. rewrite bind_ret.
  rewrite (try_bind_ok _ _ _ _ w _ tt (call_outcome _ w None p1 Hack)).
  fold course_id. rewrite Hcourse, Hshown, (detail_keyboard_of _ _ Hcourse).
  set (w1 := World p1 (user_data w) (trace w ++ [Called (AnswerCallbackQuery None) None])).
  set (stored := selection_of course_id course).
  rewrite (try_bind_ok _ _ _ _ w1
             (World p1 (<["selected_course" := stored]> (user_data w)) (trace w1)) tt)
    by reflexivity.
  set (w2 := World p1 _ _).
  rewrite (try_bind_ok (lift (Ok shown)) _ _ _ w2 w2 shown) by reflexivity.
  set (keyboard := Some (detail_keyboard ADMIN_USERNAME course)).
  destruct (send_safe_message_first telegram escape_markdown update shown keyboard None
              (EditMessageText shown keyboard None) w2)
    as [outcome [rest [Ht Hdone]]]; [unfold delivery; now rewrite Hquery|].
  pose proof (keeps_send_safe_message telegram escape_markdown update shown keyboard None w2)
    as Hkeeps.
  unfold try_except.
  destruct (send_safe_message telegram escape_markdown update shown keyboard None w2)
    as [[[]|e] w3]; cbn [fst snd] in *.
  - exists outcome, rest. split; [reflexivity|]. split; [|split].
    + apply added_app. rewrite Ht. subst w2 w1. cbn [trace]. now rewrite <- app_assoc.
    + exact Hkeeps.
    + exact Hdone.
  - unfold is_Exception. cbv beta iota. set (handle := logger ERROR _ ;; _).
    assert (emits (fun _ => True) handle) as Hhandle.
    { apply (emits_anything (on_deliveries (fun _ _ _ => True))).
      apply emits_bind; [now apply emits_logger|]. intros _.
      now apply emits_send_safe_message. }
    assert (keeps_user_data handle) as Hsame.
    { apply keeps_bind; [apply keeps_logger|]. intros _. apply keeps_send_safe_message. }
    destruct (Hhandle w3) as [es [Ht' _]]. specialize (Hsame w3).
    exists outcome, (rest ++ es). split; [reflexivity|]. split; [|split].
    + apply added_app. rewrite Ht', Ht. subst w2 w1. cbn [trace].
      now rewrite <- !app_assoc.
    + now rewrite Hsame.
    + intros Hnone. destruct (Hdone Hnone) as [_ [=]].
Qed.

(** *** When the operator is written to *)

Lemma relay_free (es : list event) :
  Forall (fun ev => is_relay ev = false) es -> existsb is_relay es = false.
Proof.
  induction 1 as [|ev es Hev _ IH]; [reflexivity|]. cbn [existsb]. now rewrite Hev, IH.
Qed.

Lemma emits_getattr_bind (P : event -> Prop) {A B : Type} (o : option A) (attr : string)
    (k : A -> M Platform B) :
  (forall a, o = Some a -> emits P (k a)) -> emits P (getattr o attr ≫= k).
Proof.
  intros Hk. destruct o as [a|]; cbn [getattr].
  - rewrite bind_ret. now apply Hk.
  - rewrite bind_raise. apply emits_raise.
Qed.

Lemma emits_say_outside_relay (update : Update) (text : string) :
  emits (fun ev => is_relay ev = false)
    (send_safe_message telegram escape_markdown update text None None).
Proof.
  now apply emits_send_outside_relay.
Qed.

(** Without a callback query, a course for the payload or a user,
    [contact_admin] does not call [bot.send_message]. *)
Lemma contact_admin_quiet (update : Update) :
  (forall query course user,
      callback_query update = Some query ->
      dict_get COURSE_DATA (Py.replace (data query) "contact_admin_" "") = Some course ->
      effective_user update = Some user -> False) ->
  emits (fun ev => is_relay ev = false)
    (contact_admin telegram ADMIN_USERNAME escape_markdown update).
Proof.
  intros Hnever. unfold contact_admin. apply emits_try_except.
  - apply emits_getattr_bind. intros query Hquery.
    apply emits_bind; [now apply emits_call|]. intros _.
    destruct (dict_get COURSE_DATA _) as [course|] eqn:Hcourse;
      [|apply emits_say_outside_relay].
    apply emits_getattr_bind. intros user Huser.
    destruct (Hnever query course user Hquery Hcourse Huser).
  - intros e. apply emits_bind; [now apply emits_logger|]. intros _.
    apply emits_say_outside_relay.
Qed.

(** X13. [contact_admin] writes to the operator at most once, and only for a
    known course: when a run calls [bot.send_message], the payload of the
    button names a course of the table, the update has a user, the platform
    accepted the answer to the button press, and the call to the operator
    comes directly after that answer and is the only one of the run. *)
Theorem contact_admin_relays_once (update : Update) (w : world Platform) :
  let es :=
    added w (snd (contact_admin telegram ADMIN_USERNAME escape_markdown update w)) in
  existsb is_relay es = true ->
  exists (query : CallbackQuery) (course : Course) (user : User)
         (inquiry : string) (outcome : option string) (rest : list event),
    callback_query update = Some query
    /\ dict_get COURSE_DATA (Py.replace (data query) "contact_admin_" "") = Some course
    /\ effective_user update = Some user
    /\ es = Called (AnswerCallbackQuery None) None
            :: Called (SendMessage ("@" +:+ Py.fmt_opt ADMIN_USERNAME) inquiry) outcome
            :: rest
    /\ Forall (fun ev => is_relay ev = false) rest.
Proof.
  intros es Hrelay. subst es.
  assert (forall m : M Platform unit,
             emits (fun ev => is_relay ev = false) m ->
             existsb is_relay (added w (snd (m w))) = true -> False) as Hquiet.
  { intros m Hm H. rewrite (relay_free _ (emits_added _ m w Hm)) in H. discriminate. }
  destruct (callback_query update) as [query|] eqn:Hquery;
    [|destruct (Hquiet _ (contact_admin_quiet update ltac:(congruence)) Hrelay)].
  destruct (dict_get COURSE_DATA (Py.replace (data query) "contact_admin_" ""))
    as [course|] eqn:Hcourse;
    [|destruct (Hquiet _ (contact_admin_quiet update ltac:(congruence)) Hrelay)].
  destruct (effective_user update) as [user|] eqn:Huser;
    [|destruct (Hquiet _ (contact_admin_quiet update ltac:(congruence)) Hrelay)].
  exists query, course, user.
  revert Hrelay. unfold contact_admin. rewrite Hquery, Huser. cbn [getattr].
  rewrite bind_ret, Hcourse.
  set (handle := fun e : exn => logger ERROR _ ;; _).
  assert (forall e, emits (fun ev => is_relay ev = false) (handle e)) as Hhandle.
  { intros e. apply emits_bind; [now apply emits_logger|]. intros _.
    apply emits_say_outside_relay. }
  destruct (telegram (platform w) (AnswerCallbackQuery None)) as [[r0|] p1] eqn:Hack.
  - rewrite (try_bind_raise _ _ _ _ w _ _ (call_outcome _ w _ p1 Hack)).
    cbn [is_Exception]. set (w1 := World p1 _ _).
    destruct (Hhandle (TelegramError r0) w1) as [es [Ht Hes]].
    rewrite (added_app w _ (Called (AnswerCallbackQuery None) (Some r0) :: es))
      by (rewrite Ht; subst w1; cbn [trace]; now rewrite <- app_assoc).
    cbn [existsb is_relay]. rewrite (relay_free es Hes). discriminate.
  - intros _.
    rewrite (try_bind_ok _ _ _ _ w _ tt (call_outcome _ w None p1 Hack)).
    rewrite bind_ret. set (w1 := World p1 _ _).
    match goal with
    | |- context [call telegram (SendMessage ?chat ?text)] => set (inquiry := text)
    end.
    exists inquiry.
    destruct (telegram (platform w1)
                (SendMessage ("@" +:+ Py.fmt_opt ADMIN_USERNAME) inquiry))
      as [[r1|] p2] eqn:Hsent.
    + rewrite (try_bind_raise _ _ _ _ w1 _ _ (call_outcome _ w1 _ p2 Hsent)).
      cbn [is_Exception]. set (w2 := World p2 _ _).
      destruct (Hhandle (TelegramError r1) w2) as [es [Ht Hes]].
      exists (Some r1), es. repeat split; [|exact Hes].
      apply added_app. rewrite Ht. subst w2 w1. cbn [trace]. now rewrite <- !app_assoc.
    + rewrite (try_bind_ok _ _ _ _ w1 _ tt (call_outcome _ w1 None p2 Hsent)).
      set (w2 := World p2 _ _).
      match goal with
      | |- context [try_except ?body is_Exception handle w2] =>
          assert (emits (fun ev => is_relay ev = false) (try_except body is_Exception handle))
            as Hrest
            by (apply emits_try_except; [apply emits_say_outside_relay | exact Hhandle])
      end.
      destruct (Hrest w2) as [es [Ht Hes]].
      exists None, es. repeat split; [|exact Hes].
      apply added_app. rewrite Ht. subst w2 w1. cbn [trace]. now rewrite <- !app_assoc.
Qed.

(** *** The error handler *)

(** X14. [error_handler] logs the update and the error before anything
    else, and then: without an update it raises an [AttributeError] and
    calls nothing; for an update without an effective message it does
    nothing more and returns; for an update with an effective message but
    neither a callback query nor a message it raises an [AttributeError]
    and calls nothing; in reply to a message it never raises; and for a
    button press it raises only the error of a rejected apology answer. *)
Theorem error_handler_outcomes (update : option Update) (error : exn)
    (w : world Platform) :
  let final := error_handler telegram escape_markdown str_update update error w in
  exists es : list event,
    added w (snd final) = error_line str_update update error :: es
    /\ match update with
       | None =>
           es = []
           /\ fst final
              = Raise (AttributeError "'NoneType' object has no attribute 'effective_message'")
       | Some upd =>
           match effective_message upd, callback_query upd, message upd with
           | None, _, _ => es = [] /\ fst final = Ok tt
           | Some _, None, None =>
               es = []
               /\ fst final
                  = Raise (AttributeError "'NoneType' object has no attribute 'reply_text'")
           | Some _, None, Some _ => fst final = Ok tt
           | Some _, Some _, _ =>
               forall e, fst final = Raise e ->
                         exists msg, e = TelegramError msg
                                     /\ last es = Some (Called acknowledgment (Some msg))
           end
       end.
Proof.
  intros final. subst final. unfold error_handler, error_line.
  set (line := Logged ERROR _).
  change ((logger ERROR _ ;; ?k) w) with (k (record line w)).
  set (w1 := record line w).
  assert (forall w' es, trace w' = trace w1 ++ es -> added w w' = line :: es) as Hadded.
  { intros w' es Ht. apply added_app. rewrite Ht. subst w1. unfold record. cbn [trace].
    now rewrite <- app_assoc. }
  destruct update as [upd|]; cbn [getattr].
  - rewrite bind_ret.
    destruct (effective_message upd) as [shown|].
    + set (text := "An error occurred. Please try again later.").
      destruct (callback_query upd) as [query|] eqn:Hquery.
      * destruct (emits_say_outside_relay upd text w1) as [es [Ht _]].
        exists es. split; [now apply Hadded|].
        intros e Hraise.
        destruct (edit_raises_acknowledgment upd query text None None w1 e Hquery Hraise)
          as [msg [es' [-> Ht']]].
        exists msg. split; [reflexivity|].
        rewrite Ht in Ht'. apply app_inv_head in Ht'. rewrite Ht'. apply last_snoc.
      * destruct (message upd) as [msg|] eqn:Hmsg.
        -- destruct (emits_say_outside_relay upd text w1) as [es [Ht _]].
           exists es. split; [now apply Hadded|].
           now apply (reply_never_raises upd msg).
        -- rewrite (send_safe_message_no_target upd text None None w1)
             by (unfold delivery; now rewrite Hquery, Hmsg).
           exists []. split; [apply Hadded; symmetry; apply app_nil_r | now split].
    + exists []. split; [apply Hadded; symmetry; apply app_nil_r | now split].
  - rewrite bind_raise.
    exists []. split; [apply Hadded; symmetry; apply app_nil_r | now split].
Qed.

End Handlers.

(** ** Further runs on concrete platforms *)

Lemma replies_never_raise_witness :
  (forall (text : string) (reply_markup : option InlineKeyboardMarkup)
          (parse_mode : option string) (w : world unit),
      fst (send_safe_message rejecting escape_markdown_v2 command_update text reply_markup
             parse_mode w)
      = Ok tt)
  /\ (forall w : world unit,
         let final := start_command rejecting escape_markdown_v2 command_update w in
         fst final = Ok tt /\ user_data (snd final) = user_data w).
Proof.
  exact (replies_never_raise rejecting escape_markdown_v2 command_update
           {| message_id := 1 |} eq_refl eq_refl).
Defined.

Lemma handlers_raise_only_failed_acknowledgment_witness :
  exists (msg : string) (es : list event),
    TelegramError "Bad Request" = TelegramError msg
    /\ added (fresh tt)
         (snd (run rejecting (Some "operator") escape_markdown_v2 Select_course
                 (button_press "select_course_course_b") (fresh tt)))
       = es ++ [Called acknowledgment (Some msg)].
Proof.
  exact (handlers_raise_only_failed_acknowledgment rejecting (Some "operator")
           escape_markdown_v2 Select_course (button_press "select_course_course_b")
           {| data := "select_course_course_b" |} (fresh tt) (TelegramError "Bad Request")
           eq_refl eq_refl).
Defined.

Lemma confirmation_follows_relay_witness :
  relayed_to "@operator"
    (added (fresh tt)
       (snd (contact_admin accepting (Some "operator") escape_markdown_v2
               (button_press "contact_admin_course_b") (fresh tt))))
  = true.
Proof.
  apply (confirmation_follows_relay accepting (Some "operator") escape_markdown_v2
           (button_press "contact_admin_course_b") (fresh tt)).
  vm_compute. reflexivity.
Defined.

Lemma session_stays_sound_witness :
  sound_session
    (user_data
       (snd (run accepting (Some "operator") escape_markdown_v2 Select_course
               (button_press "select_course_course_b") (fresh tt)))).
Proof.
  apply (session_stays_sound accepting (Some "operator") escape_markdown_v2
           (fun _ => "update") (fresh tt)).
  intros stored Hstored. vm_compute in Hstored. discriminate.
Defined.

Lemma select_course_shows_detail_witness :
  let final :=
    select_course accepting (Some "operator") escape_markdown_v2
      (button_press "select_course_course_b") (fresh tt) in
  exists (shown : string) (outcome : option string) (rest : list event),
    description_text standard_group = Ok shown
    /\ added (fresh tt) (snd final)
       = Called (AnswerCallbackQuery None) None
         :: Called (EditMessageText shown
                      (Some (detail_keyboard (Some "operator") standard_group)) None)
              outcome
         :: rest
    /\ user_data (snd final)
       = <["selected_course" := selection_of "course_b" standard_group]> ∅
    /\ (outcome = None -> rest = [] /\ fst final = Ok tt).
Proof.
  exact (select_course_shows_detail accepting (Some "operator") escape_markdown_v2
           (button_press "select_course_course_b") {| data := "select_course_course_b" |}
           standard_group (fresh tt) tt eq_refl eq_refl eq_refl).
Defined.

Lemma contact_admin_relays_once_witness :
  exists (query : CallbackQuery) (course : Course) (user : User)
         (inquiry : string) (outcome : option string) (rest : list event),
    callback_query (button_press "contact_admin_course_b") = Some query
    /\ dict_get COURSE_DATA (Py.replace (data query) "contact_admin_" "") = Some course
    /\ effective_user (button_press "contact_admin_course_b") = Some user
    /\ added (fresh tt)
         (snd (contact_admin accepting (Some "operator") escape_markdown_v2
                 (button_press "contact_admin_course_b") (fresh tt)))
       = Called (AnswerCallbackQuery None) None
         :: Called (SendMessage "@operator" inquiry) outcome
         :: rest
    /\ Forall (fun ev => is_relay ev = false) rest.
Proof.
  apply (contact_admin_relays_once accepting (Some "operator") escape_markdown_v2
           (button_press "contact_admin_course_b") (fresh tt)).
  vm_compute. reflexivity.
Defined.
